(** * waifu-backend: the chat relay and the scheduled poster of [index.js]

    A shallow embedding of [src/index.js]: the JavaScript values the
    program touches, a small state/exception/output monad for its effects
    (console, network, timers, process exit), the Express application as
    the ordered list of layers the script registers, and the two flows
    (POST /api/chat and postToX). *)

From Stdlib Require Import ZArith QArith Qround List String Ascii DecimalString Lia.
From stdpp Require Import base option list strings gmap.
Close Scope Q_scope.
Open Scope Z_scope.

(* ===================================================================== *)
(** ** JavaScript values                                                  *)
(* ===================================================================== *)

Module JS.

(** A JavaScript string is a sequence of UTF-16 code units; [.length]
    counts code units. *)
Abbreviation code_unit := N (only parsing).
Abbreviation jsstring := (list N) (only parsing).

(** An ASCII literal of the source, as code units. *)
Definition lit (s : string) : jsstring :=
  List.map N_of_ascii (list_ascii_of_string s).

(** The values that reach the program: parsed JSON, plus [undefined].
    A number carries the exact value of its double. *)
#[warnings="-register-all"]
Inductive jsval : Type :=
| JUndefined
| JNull
| JBool (b : bool)
| JNum (q : Q)
| JStr (s : jsstring)
| JArr (elems : list jsval)
| JObj (props : list (jsstring * jsval)).

(** ToBoolean, as used by [!v]. *)
Definition truthy (v : jsval) : bool :=
  match v with
  | JUndefined | JNull => false
  | JBool b => b
  | JNum q => negb (Qeq_bool q 0%Q)
  | JStr s => negb (Nat.eqb (List.length s) 0)
  | JArr _ | JObj _ => true
  end.

(** Own-property lookup in an object literal or a parsed object. *)
Fixpoint assoc (k : jsstring) (ps : list (jsstring * jsval)) : option jsval :=
  match ps with
  | [] => None
  | (k', v) :: rest => if decide (k = k') then Some v else assoc k rest
  end.

(** The canonical property key of an array index. *)
Definition index_key (i : nat) : jsstring :=
  lit (NilEmpty.string_of_uint (Nat.to_uint i)).

(** What a thrown value carries for the program: the fields the handlers
    read from it ([message], [response?.status], [response?.data],
    [stack]). *)
Record js_error : Type := mk_error {
  e_message : jsstring;
  e_status : jsval;
  e_data : jsval;
  e_stack : jsstring
}.

(** The TypeError of a property read on [undefined] or [null]. The
    message is the engine's text for a read on [undefined]; for [null]
    and for a destructuring the engine words it differently. Only the
    log line of the chat handler shows the text. *)
Definition type_error (key : jsstring) : js_error :=
  let msg := lit "Cannot read properties of undefined (reading '" ++ key ++ lit "')" in
  {| e_message := msg; e_status := JUndefined; e_data := JUndefined;
     e_stack := lit "TypeError: " ++ msg |}.

(** An operation that may throw: it returns a value or throws one. The
    same shape describes a promise, which resolves or rejects. *)
Inductive attempt (A : Type) : Type :=
| Returned (a : A)
| Threw (e : js_error).
Arguments Returned {A} a.
Arguments Threw {A} e.

Definition and_then {A B} (x : attempt A) (f : A -> attempt B) : attempt B :=
  match x with
  | Returned a => f a
  | Threw e => Threw e
  end.

(** [v.name] for a name that no prototype defines (the program reads
    [waifu], [message], [prompt], [choices], [content]): the own property
    of an object, [undefined] on every other value, a TypeError on
    [undefined] and [null]. *)
Definition get_field (v : jsval) (name : jsstring) : attempt jsval :=
  match v with
  | JUndefined | JNull => Threw (type_error name)
  | JObj ps => Returned (default JUndefined (assoc name ps))
  | JBool _ | JNum _ | JStr _ | JArr _ => Returned JUndefined
  end.

(** [v[i]] for an index [i]: the element of an array, the one-unit
    substring of a string, the property named by the index on an object. *)
Definition get_index (v : jsval) (i : nat) : attempt jsval :=
  match v with
  | JUndefined | JNull => Threw (type_error (index_key i))
  | JArr l => Returned (default JUndefined (l !! i))
  | JStr s => Returned (from_option (fun c => JStr [c]) JUndefined (s !! i))
  | JObj ps => Returned (default JUndefined (assoc (index_key i) ps))
  | JBool _ | JNum _ => Returned JUndefined
  end.

(** [s.slice(0, n)] for [n >= 0]. *)
Definition slice0 (n : nat) (s : jsstring) : jsstring := take n s.

(** [s.replace(a, b)] with one-unit strings [a] and [b]: only the first
    occurrence is replaced. *)
Fixpoint replace_first (a b : code_unit) (s : jsstring) : jsstring :=
  match s with
  | [] => []
  | c :: rest => if N.eqb c a then b :: rest else c :: replace_first a b rest
  end.

(** [`${v}`] for the two kinds of value the poster interpolates. *)
Definition template_string (v : option jsstring) : jsstring :=
  match v with
  | Some s => s
  | None => lit "undefined"
  end.

End JS.
Import JS.


(* ===================================================================== *)
(** ** Effects: clock, timers, console, network, process                  *)
(* ===================================================================== *)

Module Runtime.

(** The functions handed to [setTimeout]. *)
Inductive callback : Type :=
| PostToX.

(** What the process does to the outside world, in the order it does it. *)
Inductive effect : Type :=
| ConsoleLog (args : list jsval)
| ConsoleError (args : list jsval)
| AxiosPost (url : jsstring) (data : jsval) (headers : list (jsstring * jsstring))
| TweetV2 (text : jsstring)
| ProcessExit (code : Z)
| AppListen (port : jsval) (host : jsstring).

(** The state of the process: the clock (milliseconds), the pending
    timers with their due times, and the hit counters of the rate
    limiter (per client address: hits in the window, end of the window). *)
Record state : Type := mk_state {
  now : Z;
  timers : list (Z * callback);
  hits : gmap string (nat * Z)
}.

(** How a run ends: with a value, with a thrown value that nothing
    caught, or with the process terminated by [process.exit(code)]. *)
Inductive result (A : Type) : Type :=
| Ok (a : A)
| Throw (e : js_error)
| Exit (code : Z).
Arguments Ok {A} a.
Arguments Throw {A} e.
Arguments Exit {A} code.

Definition M (A : Type) : Type := state -> result A * state * list effect.

Definition ret {A} (a : A) : M A := fun s => (Ok a, s, []).

Definition bind {A B} (m : M A) (k : A -> M B) : M B := fun s =>
  match m s with
  | (Ok a, s1, out1) => let '(r, s2, out2) := k a s1 in (r, s2, out1 ++ out2)
  | (Throw e, s1, out1) => (Throw e, s1, out1)
  | (Exit c, s1, out1) => (Exit c, s1, out1)
  end.

#[global] Instance M_ret : MRet M := @ret.
#[global] Instance M_bind : MBind M := fun A B k m => bind m k.

(** [throw e] *)
Definition throw {A} (e : js_error) : M A := fun s => (Throw e, s, []).

(** [try { m } catch (error) { h error }] *)
Definition try_catch {A} (m : M A) (h : js_error -> M A) : M A := fun s =>
  match m s with
  | (Throw e, s1, out1) => let '(r, s2, out2) := h e s1 in (r, s2, out1 ++ out2)
  | other => other
  end.

(** A pure operation that may throw. *)
Definition settle {A} (r : attempt A) : result A :=
  match r with
  | Returned a => Ok a
  | Threw e => Throw e
  end.

Definition lift {A} (r : attempt A) : M A := fun s => (settle r, s, []).

Definition emit (e : effect) : M unit := fun s => (Ok tt, s, [e]).

Definition console_log (args : list jsval) : M unit := emit (ConsoleLog args).
Definition console_error (args : list jsval) : M unit := emit (ConsoleError args).

(** [process.exit(code)]: nothing after it runs. *)
Definition process_exit {A} (code : Z) : M A := fun s => (Exit code, s, [ProcessExit code]).

(** [Date.now()] *)
Definition Date_now : M Z := fun s => (Ok (now s), s, []).

(** Something happens at time [t] (a request arrives): the clock is then
    at [t], unless it is already past it. *)
Definition at_time (t : Z) : M unit := fun s =>
  (Ok tt, {| now := Z.max (now s) t; timers := timers s; hits := hits s |}, []).

(** [setTimeout(cb, delay)]: [cb] becomes due [delay] ms from now. *)
Definition setTimeout (cb : callback) (delay : Z) : M unit := fun s =>
  (Ok tt, {| now := now s; timers := timers s ++ [(now s + delay, cb)]; hits := hits s |}, []).

(** The reply of a remote service to one call: how long the call takes
    and whether its promise resolves (with a value) or rejects. *)
Record reply (A : Type) : Type := mk_reply {
  latency : Z;
  outcome : attempt A
}.
Arguments mk_reply {A} latency outcome.
Arguments latency {A} r.
Arguments outcome {A} r.

(** [await p] for a promise that settles as [r] says: the clock advances
    by the latency, then the value is returned or the rejection thrown. *)
Definition await {A} (r : reply A) : M A := fun s =>
  (settle (outcome r), {| now := now s + latency r; timers := timers s; hits := hits s |}, []).

(** The effects of a run, the result of a run. *)
Definition output {A} (x : result A * state * list effect) : list effect := snd x.
Definition final {A} (x : result A * state * list effect) : state := snd (fst x).
Definition value {A} (x : result A * state * list effect) : result A := fst (fst x).

End Runtime.
Import Runtime.

(* ===================================================================== *)
(** ** The program                                                        *)
(* ===================================================================== *)

Inductive method : Type := GET | POST | HEAD | OPTIONS | OtherMethod.

(** An inbound request as the route handlers see it. [json_error] says
    that the payload was not parsable JSON; otherwise [r_body] is the
    value of [req.body] after the JSON middleware ([undefined] when it
    left the field unset). *)
Record request : Type := mk_request {
  r_method : method;
  r_path : jsstring;
  r_ip : string;
  r_headers : jsval;
  json_error : bool;
  r_body : jsval
}.

(** What the client receives: a response written by a route handler
    ([res.status(s).json(b)], [res.send(b)]), or the answer of one of the
    collaborators that ended the request before any route ran. *)
Inductive response : Type :=
| Res (status : Z) (body : jsval)
| CorsPreflight
| BodyParserError
| RateLimited
| NotFound.

(** The route handlers of the script; the chat handler closes over the
    credential read at start-up. *)
Inductive handler : Type :=
| HealthHandler
| RootHandler
| ChatHandler (openAiKey : jsstring).

(** The layers of the Express application, in registration order. *)
Inductive layer : Type :=
| UseCors (origin : jsstring)
| UseJson
| UseRateLimit (windowMs : Z) (max : nat)
| Route (m : method) (path : jsstring) (h : handler).

Definition method_eqb (a b : method) : bool :=
  match a, b with
  | GET, GET | POST, POST | HEAD, HEAD | OPTIONS, OPTIONS | OtherMethod, OtherMethod => true
  | _, _ => false
  end.

(** How the router matches a request against a route registered with
    [app.get] or [app.post]: the method is the route's (a route for GET
    also serves HEAD; the handler runs as for GET and the body it writes
    is not sent), and the path is the route's up to the case of ASCII
    letters, with or without one slash added at the end. [r_path] is the
    path of the request URL, without the query string. *)
Definition method_matches (route_method request_method : method) : bool :=
  method_eqb request_method route_method
  || (method_eqb request_method HEAD && method_eqb route_method GET).

Definition ascii_lower (c : N) : N :=
  if ((65 <=? c) && (c <=? 90))%N then (c + 32)%N else c.

Definition lower_case (s : jsstring) : jsstring := List.map ascii_lower s.

Definition path_matches (route path : jsstring) : bool :=
  bool_decide (lower_case path = lower_case route)
  || bool_decide (lower_case path = lower_case route ++ [47%N]).

(** What one scheduled tick gets from outside: the value of
    [Math.random()] and the reply of the publish API. The number is an
    exact rational and its product with the pool size is taken exactly;
    the code's product is rounded to a double, so where the exact product
    lies within half a unit in the last place of an integer the code can
    select the neighbouring template. *)
Record tick_env : Type := mk_tick {
  random : Q;
  publish : reply unit
}.

(** [cryptoFlirtMessages]: the five templates, as UTF-16 code units (the
    non-ASCII units are the right single quote 8217, the em dash 8212 and
    the surrogate pairs of the closing emoji). *)
Definition cryptoFlirtMessages : list jsstring :=
  [ lit "Ohh, is that your token, daddy? I love it as much as I love you! "
      ++ [55357%N; 56459%N];
    lit "Hey cutie, your crypto wallet" ++ [8217%N] ++ lit "s looking hot" ++ [8212%N]
      ++ lit "wanna trade with me? " ++ [55357%N; 56856%N];
    lit "Mmm, your blockchain moves are turning me on, daddy! Let" ++ [8217%N]
      ++ lit "s stack those coins! " ++ [55357%N; 56504%N];
    lit "Is that a new token in your pocket, or are you just happy to see me? "
      ++ [55357%N; 56841%N];
    lit "I" ++ [8217%N] ++ lit "m hodling my heart for you and your crypto, daddy! "
      ++ [55357%N; 56469%N] ].

Section Program.

(** [Date.prototype.toISOString], applied to the clock. *)
Variable toISOString : Z -> jsstring.

(** [new Date().toISOString()] *)
Definition Date_toISOString : M jsstring :=
  t ← Date_now; mret (toISOString t).

(** *** Routes *)

(** [app.get('/health', ...)] *)
Definition health_handler (req : request) : M response :=
  t ← Date_toISOString;
  console_log [JStr (lit "Health check requested at"); JStr t];;
  mret (Res 200 (JObj [(lit "status", JStr (lit "OK"))])).

(** [app.get('/', ...)] *)
Definition root_handler (req : request) : M response :=
  t ← Date_toISOString;
  console_log [JStr (lit "Root route requested at"); JStr t];;
  mret (Res 200 (JStr (lit "Waifu Backend is running!"))).

(** [axios.post(url, data, { headers })]: the request goes out, the
    promise settles as the provider's reply says; a resolved promise
    yields [response.data]. *)
Definition axios_post (url : jsstring) (data : jsval)
    (headers : list (jsstring * jsstring)) (up : reply jsval) : M jsval :=
  emit (AxiosPost url data headers);; await up.

(** The completion request body built by the chat handler. *)
Definition completion_request (prompt message : jsval) : jsval :=
  JObj [ (lit "model", JStr (lit "gpt-3.5-turbo"));
         (lit "messages",
          JArr [ JObj [(lit "role", JStr (lit "system")); (lit "content", prompt)];
                 JObj [(lit "role", JStr (lit "user")); (lit "content", message)] ]) ].

Definition completion_url : jsstring := lit "https://api.openai.com/v1/chat/completions".

Definition completion_headers (openAiKey : jsstring) : list (jsstring * jsstring) :=
  [ (lit "Content-Type", lit "application/json");
    (lit "Authorization", lit "Bearer " ++ openAiKey) ].

(** [response.data.choices[0].message.content] *)
Definition first_choice_content (data : jsval) : attempt jsval :=
  and_then (get_field data (lit "choices")) (fun choices =>
  and_then (get_index choices 0) (fun choice =>
  and_then (get_field choice (lit "message")) (fun message =>
  get_field message (lit "content")))).

Definition missing_fields : response :=
  Res 400 (JObj [(lit "error", JStr (lit "Missing required fields"))]).

Definition something_went_wrong : response :=
  Res 500 (JObj [(lit "error", JStr (lit "Something went wrong"))]).

(** The two structured console lines of the chat handler. *)
Definition incoming_log (t : jsstring) (req : request) : list jsval :=
  [ JStr (lit "Incoming request to /api/chat at"); JStr t; JStr (lit ":");
    JObj [(lit "headers", r_headers req); (lit "body", r_body req)] ].

Definition upstream_error_log (t : jsstring) (error : js_error) : list jsval :=
  [ JStr (lit "OpenAI API Error at"); JStr t; JStr (lit ":");
    JObj [ (lit "message", JStr (e_message error));
           (lit "status", e_status error);
           (lit "data", e_data error);
           (lit "stack", JStr (e_stack error)) ] ].

(** [app.post('/api/chat', async (req, res) => ...)]; [up] is the reply
    of the completion provider to the call, if one is made. *)
Definition chat_handler (openAiKey : jsstring) (up : reply jsval)
    (req : request) : M response :=
  t ← Date_toISOString;
  console_log (incoming_log t req);;
  waifu ← lift (get_field (r_body req) (lit "waifu"));
  message ← lift (get_field (r_body req) (lit "message"));
  prompt ← lift (get_field (r_body req) (lit "prompt"));
  if negb (truthy waifu) || negb (truthy message) || negb (truthy prompt) then
    mret missing_fields
  else
    try_catch
      (t1 ← Date_toISOString;
       console_log [JStr (lit "Making OpenAI API call at"); JStr t1];;
       data ← axios_post completion_url (completion_request prompt message)
                (completion_headers openAiKey) up;
       t2 ← Date_toISOString;
       console_log [JStr (lit "OpenAI API call successful at"); JStr t2];;
       waifuResponse ← lift (first_choice_content data);
       mret (Res 200 (JObj [(lit "response", waifuResponse)])))
      (fun error =>
       t3 ← Date_toISOString;
       console_error (upstream_error_log t3 error);;
       mret something_went_wrong).

Definition run_handler (h : handler) (up : reply jsval) (req : request) : M response :=
  match h with
  | HealthHandler => health_handler req
  | RootHandler => root_handler req
  | ChatHandler key => chat_handler key up req
  end.

(** *** Middleware *)

(** Modelled from the spec: the rate-limiting collaborator
    (express-rate-limit, a dependency that is not in src/) "caps each
    client IP to a fixed request count per fixed time window across all
    routes; returns its own error response when exceeded". Each request
    counts as a hit of its client in the current window; the middleware
    lets it through while the count is at most [max]. *)
Definition limiter_hit (windowMs : Z) (max : nat) (ip : string) : M bool := fun s =>
  let entry :=
    match hits s !! ip with
    | Some (n, reset) => if now s <? reset then (S n, reset) else (1%nat, now s + windowMs)
    | None => (1%nat, now s + windowMs)
    end in
  (Ok (fst entry <=? max)%nat,
   {| now := now s; timers := timers s; hits := <[ip := entry]> (hits s) |}, []).

(** Express walks the layers in registration order: a middleware either
    ends the request or passes it on; a route runs its handler when method
    and path match. The CORS middleware answers preflights itself, the
    JSON middleware rejects a payload it cannot parse. *)
Fixpoint dispatch (app : list layer) (up : reply jsval) (req : request) : M response :=
  match app with
  | [] => mret NotFound
  | UseCors _ :: rest =>
      if method_eqb (r_method req) OPTIONS then mret CorsPreflight
      else dispatch rest up req
  | UseJson :: rest =>
      if json_error req then mret BodyParserError else dispatch rest up req
  | UseRateLimit windowMs max :: rest =>
      admitted ← limiter_hit windowMs max (r_ip req);
      if admitted : bool then dispatch rest up req else mret RateLimited
  | Route m path h :: rest =>
      if method_matches m (r_method req) && path_matches path (r_path req)
      then run_handler h up req
      else dispatch rest up req
  end.

(** *** The scheduled poster *)

Section Poster.

(** The message pool; the script's pool is [cryptoFlirtMessages]. *)
Variable pool : list jsstring.

(** [pool[Math.floor(Math.random() * pool.length)]] *)
Definition getRandomMessage (r : Q) : option jsstring :=
  let i := Qfloor (r * inject_Z (Z.of_nat (length pool)))%Q in
  if i <? 0 then None else pool !! Z.to_nat i.

(** [`${getRandomMessage()} | ${new Date().toISOString().slice(0, 19).replace('T', ' ')}`] *)
Definition compose_tweet (msg : option jsstring) (iso : jsstring) : jsstring :=
  template_string msg ++ lit " | " ++ replace_first 84%N 32%N (slice0 19 iso).

(** [twitterClient.v2.tweet(text)] *)
Definition twitter_tweet (text : jsstring) (r : reply unit) : M unit :=
  emit (TweetV2 text);; await r.

Definition error_object (e : js_error) : jsval :=
  JObj [ (lit "message", JStr (e_message e)); (lit "status", e_status e);
         (lit "data", e_data e); (lit "stack", JStr (e_stack e)) ].

(** [async function postToX()] *)
Definition postToX (tick : tick_env) : M unit :=
  try_catch
    (iso ← Date_toISOString;
     let tweet := compose_tweet (getRandomMessage (random tick)) iso in
     if (length tweet <=? 280)%nat then
       twitter_tweet tweet (publish tick);;
       t ← Date_toISOString;
       console_log [JStr (lit "Posted to X at " ++ t ++ lit ": " ++ tweet)]
     else
       t ← Date_toISOString;
       console_log [JStr (lit "Tweet too long at " ++ t ++ lit ": " ++ tweet)])
    (fun error =>
     t ← Date_toISOString;
     console_error [JStr (lit "Error posting to X at " ++ t ++ lit ":"); error_object error]);;
  setTimeout PostToX 3600000.

(** [postToX()] is an async function: a call runs it up to its first
    [await] and returns to the caller. [postToX_begin] is that first
    stretch: it yields the text whose publish call is now pending, or
    nothing when the function ran to its end (the skip branch, which has
    no [await]). [postToX_resume] is the rest, run when the pending call
    settles. *)
Definition postToX_begin (tick : tick_env) : M (option jsstring) :=
  iso ← Date_toISOString;
  let tweet := compose_tweet (getRandomMessage (random tick)) iso in
  if (length tweet <=? 280)%nat then
    emit (TweetV2 tweet);;
    mret (Some tweet)
  else
    t ← Date_toISOString;
    console_log [JStr (lit "Tweet too long at " ++ t ++ lit ": " ++ tweet)];;
    setTimeout PostToX 3600000;;
    mret None.

Definition postToX_resume (tick : tick_env) (tweet : jsstring) : M unit :=
  try_catch
    (await (publish tick);;
     t ← Date_toISOString;
     console_log [JStr (lit "Posted to X at " ++ t ++ lit ": " ++ tweet)])
    (fun error =>
     t ← Date_toISOString;
     console_error [JStr (lit "Error posting to X at " ++ t ++ lit ":"); error_object error]);;
  setTimeout PostToX 3600000.

(** The timer loop: the due timer at the head of the queue fires (the
    clock moves to its due time if that is still ahead) and its callback
    runs with what the outside supplies for that tick. All timers of the
    program are set with the same delay, so the queue is in due order. *)
Definition fire_next (tick : tick_env) : M bool := fun s =>
  match timers s with
  | [] => (Ok false, s, [])
  | (due, PostToX) :: rest =>
      let s1 := {| now := Z.max (now s) due; timers := rest; hits := hits s |} in
      let '(r, s2, out) := postToX tick s1 in
      (match r with Ok _ => Ok true | Throw e => Throw e | Exit c => Exit c end, s2, out)
  end.

(** Runs one timer per element of [ticks] and counts the callbacks run;
    stops early only if no timer is pending. *)
Fixpoint event_loop (ticks : list tick_env) : M nat :=
  match ticks with
  | [] => mret 0%nat
  | tick :: rest =>
      fired ← fire_next tick;
      if fired : bool then n ← event_loop rest; mret (S n) else mret 0%nat
  end.

End Poster.

(** *** Start-up *)

(** [process.env.NAME] *)
Definition getenv (env : gmap string jsstring) (name : string) : jsval :=
  from_option JStr JUndefined (env !! name).

(** [new TwitterApi({ appKey, appSecret, accessToken, accessSecret })]:
    the constructor of the publish client (twitter-api-v2, a dependency
    that is not in src/) refuses consumer tokens that are not set, with
    [Error('Invalid consumer tokens')]; the access tokens are not checked
    at construction. *)
Definition invalid_consumer_tokens : js_error :=
  {| e_message := lit "Invalid consumer tokens"; e_status := JUndefined;
     e_data := JUndefined; e_stack := lit "Error: Invalid consumer tokens" |}.

Definition new_TwitterApi (appKey appSecret accessToken accessSecret : jsval) : M unit :=
  if negb (truthy appSecret) || negb (truthy appKey)
  then throw invalid_consumer_tokens
  else mret tt.

(** The script from top to bottom: the layers are registered in source
    order, the credential check may end the process, the publish client
    is built (an exception here is uncaught: the error hooks are only
    registered further down), [postToX()] is called and runs to its first
    [await] with what [tick] supplies, the server listens. The result is
    the application that serves traffic. (The memory logger, the signal
    and error hooks and the log line of the listen callback are left
    out.) *)
Definition startup (env : gmap string jsstring) (tick : tick_env) : M (list layer) :=
  let app := [ UseCors (lit "https://waifuai.live"); UseJson;
               UseRateLimit (60 * 1000) 10;
               Route GET (lit "/health") HealthHandler;
               Route GET (lit "/") RootHandler ] in
  let openAiKey := getenv env "OPENAI_API_KEY" in
  key ← (if negb (truthy openAiKey) then
           t ← Date_toISOString;
           console_error [ JStr (lit "Error: OPENAI_API_KEY environment variable is not set at");
                           JStr t ];;
           process_exit 1
         else
           mret (match openAiKey with JStr k => k | _ => [] end));
  let app := app ++ [Route POST (lit "/api/chat") (ChatHandler key)] in
  new_TwitterApi (getenv env "TWITTER_APP_KEY") (getenv env "TWITTER_APP_SECRET")
    (getenv env "TWITTER_ACCESS_TOKEN") (getenv env "TWITTER_ACCESS_SECRET");;
  postToX_begin cryptoFlirtMessages tick;;
  t ← Date_toISOString;
  console_log [JStr (lit "Starting the Waifu Backend at"); JStr t];;
  let port := if truthy (getenv env "PORT") then getenv env "PORT" else JNum (3000 # 1) in
  emit (AppListen port (lit "0.0.0.0"));;
  mret app.

(** Requests handled one after the other by the running application,
    each with the time it arrives at and the reply the completion
    provider would give it. *)
Fixpoint serve (app : list layer) (reqs : list (Z * request * reply jsval))
    : M (list response) :=
  match reqs with
  | [] => mret []
  | (t, req, up) :: rest =>
      at_time t;;
      r ← dispatch app up req;
      rs ← serve app rest;
      mret (r :: rs)
  end.

End Program.

(* ===================================================================== *)
(** ** Observations and the vocabulary of the specification               *)
(* ===================================================================== *)

(** The calls to the completion provider among the effects of a run. *)
Definition is_upstream_call (e : effect) : bool :=
  match e with
  | AxiosPost _ _ _ => true
  | _ => false
  end.

Definition upstream_calls (out : list effect) : list effect :=
  List.filter is_upstream_call out.

(** The texts handed to the publish API among the effects of a run. *)
Definition published (out : list effect) : list jsstring :=
  omap (fun e => match e with TweetV2 text => Some text | _ => None end) out.

Definition is_listen (e : effect) : bool :=
  match e with
  | AppListen _ _ => true
  | _ => false
  end.

(** An effect with the Authorization header of an outbound call removed. *)
Definition without_authorization (e : effect) : effect :=
  match e with
  | AxiosPost url data headers =>
      AxiosPost url data
        (List.filter (fun h => negb (bool_decide (fst h = lit "Authorization"))) headers)
  | other => other
  end.

(** A field that is present and a non-empty string. *)
Definition present (v : jsval) : Prop :=
  exists s, v = JStr s /\ s <> [].

(** A field that is missing or the empty string. *)
Definition missing_or_empty (v : jsval) : Prop :=
  v = JUndefined \/ v = JStr [].

(** The response shape the specification assumes of the provider: an
    object whose [choices] is an array whose first element is an object
    whose [message] is an object whose [content] is a string. Any other
    2xx payload is a malformed response. *)
Definition completion_text (data : jsval) : option jsstring :=
  match data with
  | JObj ps =>
      match assoc (lit "choices") ps with
      | Some (JArr (JObj choice :: _)) =>
          match assoc (lit "message") choice with
          | Some (JObj msg) =>
              match assoc (lit "content") msg with
              | Some (JStr text) => Some text
              | _ => None
              end
          | _ => None
          end
      | _ => None
      end
  | _ => None
  end.

Definition health_ok : response :=
  Res 200 (JObj [(lit "status", JStr (lit "OK"))]).

(** The one-hour delay of the poster, in milliseconds. *)
Definition one_hour : Z := 60 * 60 * 1000.

(** What the limiter will decide for the next request of [ip]. *)
Definition within_limit (windowMs : Z) (max : nat) (ip : string) (s : state) : bool :=
  match hits s !! ip with
  | Some (n, reset) => if now s <? reset then (S n <=? max)%nat else (1 <=? max)%nat
  | None => (1 <=? max)%nat
  end.

(** The application once the script has run to its end with the
    credential [openAiKey]. *)
Definition registered_layers (openAiKey : jsstring) : list layer :=
  [ UseCors (lit "https://waifuai.live");
    UseJson;
    UseRateLimit 60000 10;
    Route GET (lit "/health") HealthHandler;
    Route GET (lit "/") RootHandler;
    Route POST (lit "/api/chat") (ChatHandler openAiKey) ].

(** A sample clock rendering and sample inputs for the examples. *)
Definition sample_iso (t : Z) : jsstring := lit "2025-01-01T00:00:00.000Z".

Definition initial : state := {| now := 0; timers := []; hits := ∅ |}.

Definition chat_body (waifu message prompt : jsval) : jsval :=
  JObj [(lit "waifu", waifu); (lit "message", message); (lit "prompt", prompt)].

Definition chat_request (body : jsval) : request :=
  {| r_method := POST; r_path := lit "/api/chat"; r_ip := "203.0.113.7";
     r_headers := JObj [(lit "content-type", JStr (lit "application/json"))];
     json_error := false; r_body := body |}.

Definition health_request : request :=
  {| r_method := GET; r_path := lit "/health"; r_ip := "203.0.113.7";
     r_headers := JObj []; json_error := false; r_body := JUndefined |}.

Definition sample_env : gmap string jsstring :=
  {[ "OPENAI_API_KEY" := lit "sk-test";
     "TWITTER_APP_KEY" := lit "app-key";
     "TWITTER_APP_SECRET" := lit "app-secret";
     "TWITTER_ACCESS_TOKEN" := lit "access-token";
     "TWITTER_ACCESS_SECRET" := lit "access-secret" ]}.

Definition sample_tick : tick_env :=
  {| random := (1 # 2)%Q; publish := mk_reply 120 (Returned tt) |}.

Definition replied (data : jsval) : reply jsval := mk_reply 250 (Returned data).

Definition completion_of (content : jsval) : jsval :=
  JObj [(lit "choices",
         JArr [JObj [(lit "message",
                      JObj [(lit "role", JStr (lit "assistant")); (lit "content", content)])]])].

(** The chat contract in the words of the specification: one upstream
    call; 200 with the first choice's text when the provider answers in
    the assumed shape; the fixed 500 on a rejected call and on a malformed
    response. *)
Definition chat_contract_as_specified : Prop :=
  forall (toISOString : Z -> jsstring) key up req s w m p,
    get_field (r_body req) (lit "waifu") = Returned w ->
    get_field (r_body req) (lit "message") = Returned m ->
    get_field (r_body req) (lit "prompt") = Returned p ->
    present w -> present m -> present p ->
    let run := chat_handler toISOString key up req s in
    length (upstream_calls (output run)) = 1%nat /\
    value run =
      Ok (match outcome up with
          | Returned data =>
              match completion_text data with
              | Some text => Res 200 (JObj [(lit "response", JStr text)])
              | None => something_went_wrong
              end
          | Threw _ => something_went_wrong
          end).

(* ===================================================================== *)
(** ** The memory logger                                                  *)
(* ===================================================================== *)

(** [process.memoryUsage()]: the three byte counts the logger reads. *)
Record memory_usage : Type := mk_usage {
  heapTotal : Z;
  heapUsed : Z;
  external : Z
}.

(** [Math.round]: the nearest integer, ties towards plus infinity. *)
Definition Math_round (x : Q) : Z := Qfloor (x + (1 # 2))%Q.

(** [String(n)] for an integer [n] below 10^21 in size (from there on
    JavaScript prints an exponent). *)
Definition number_to_string (n : Z) : jsstring :=
  lit (NilEmpty.string_of_int (Z.to_int n)).

(** [Math.round(bytes / 1024 / 1024)]; the divisions are by powers of
    two, so they are exact on the doubles of byte counts. *)
Definition rounded_megabytes (bytes : Z) : Z :=
  Math_round (inject_Z bytes / inject_Z 1024 / inject_Z 1024)%Q.

(** [Math.round(bytes / 1024 / 1024) + ' MB'] *)
Definition megabytes (bytes : Z) : jsval :=
  JStr (number_to_string (rounded_megabytes bytes) ++ lit " MB").

Section Housekeeping.

Variable toISOString : Z -> jsstring.

(** The callback of [setInterval(..., 5000)]. *)
Definition memory_log (used : memory_usage) : M unit :=
  t ← Date_toISOString toISOString;
  console_log [ JStr (lit "Memory usage at"); JStr t; JStr (lit ":");
                JObj [ (lit "heapTotal", megabytes (heapTotal used));
                       (lit "heapUsed", megabytes (heapUsed used));
                       (lit "external", megabytes (external used)) ] ].

End Housekeeping.

(* ===================================================================== *)
(** ** Further observations                                               *)
(* ===================================================================== *)

(** [undefined] or [null]. *)
Definition nullish (v : jsval) : bool :=
  match v with
  | JUndefined | JNull => true
  | _ => false
  end.

(** [v?.name] and [v?.[i]]: [undefined] where the plain read would throw. *)
Definition opt_field (v : jsval) (name : jsstring) : jsval :=
  match get_field v name with
  | Returned x => x
  | Threw _ => JUndefined
  end.

Definition opt_index (v : jsval) (i : nat) : jsval :=
  match get_index v i with
  | Returned x => x
  | Threw _ => JUndefined
  end.

(** The [console.error] lines and all console lines of a run. *)
Definition is_console_error (e : effect) : bool :=
  match e with
  | ConsoleError _ => true
  | _ => false
  end.

Definition console_errors (out : list effect) : list effect :=
  List.filter is_console_error out.

Definition is_console (e : effect) : bool :=
  match e with
  | ConsoleLog _ | ConsoleError _ => true
  | _ => false
  end.

Definition console_lines (out : list effect) : list effect :=
  List.filter is_console out.

(** The state the limiter leaves after counting a request of [ip]. *)
Definition counted (ip : string) (s : state) : state :=
  {| now := now s; timers := timers s;
     hits := <[ip := match hits s !! ip with
                     | Some (n, reset) =>
                         if now s <? reset then (S n, reset) else (1%nat, now s + 60000)
                     | None => (1%nat, now s + 60000)
                     end]> (hits s) |}.

(** The time the publish calls of a run of ticks take together. *)
Definition total_latency (ticks : list tick_env) : Z :=
  foldr (fun tick acc => latency (publish tick) + acc) 0 ticks.

(** A GET /health of the client [ip] with a parsable payload. *)
Definition health_of (ip : string) (req : request) : Prop :=
  r_method req = GET /\ r_path req = lit "/health" /\ r_ip req = ip /\ json_error req = false.

(* ===================================================================== *)
(** ** Properties                                                         *)
(* ===================================================================== *)

(** Symbolic execution of a run: the monad and the primitives unfold,
    leaving the tests of the program. *)
Ltac exec :=
  cbv [chat_handler health_handler root_handler run_handler postToX
       Date_toISOString Date_now console_log console_error emit
       mbind mret M_bind M_ret bind ret lift try_catch axios_post await
       value output final process_exit setTimeout twitter_tweet throw at_time
       postToX_begin postToX_resume new_TwitterApi];
  cbn [fst snd settle app].

(** *** Values *)

Lemma truthy_present (v : jsval) : present v -> truthy v = true.
Proof. intros (s & -> & Hs). destruct s; [congruence | reflexivity]. Qed.

Lemma falsy_missing_or_empty (v : jsval) : missing_or_empty v -> truthy v = false.
Proof. intros [-> | ->]; reflexivity. Qed.

Lemma length_replace_first (a b : code_unit) (s : jsstring) :
  length (replace_first a b s) = length s.
Proof.
  induction s as [| c rest IH]; [reflexivity |].
  cbn [replace_first]. destruct (N.eqb c a); cbn [length]; congruence.
Qed.

Lemma length_stamp (iso : jsstring) :
  (length (replace_first 84%N 32%N (slice0 19 iso)) <= 19)%nat.
Proof.
  rewrite length_replace_first. unfold slice0. rewrite length_take. lia.
Qed.

Lemma length_compose_tweet (msg : option jsstring) (iso : jsstring) :
  (length (compose_tweet msg iso) <= length (template_string msg) + 22)%nat.
Proof.
  unfold compose_tweet. rewrite !length_app.
  pose proof (length_stamp iso). change (length (lit " | ")) with 3%nat. lia.
Qed.

(** A response of the assumed shape is read as its text. *)
Lemma first_choice_content_text (data : jsval) (text : jsstring) :
  completion_text data = Some text ->
  first_choice_content data = Returned (JStr text).
Proof.
  unfold completion_text, first_choice_content.
  destruct data as [| | | | |?|ps]; try discriminate.
  cbn [get_field and_then].
  destruct (assoc (lit "choices") ps) as [[| | | | |[|[| | | | | |choice] ?]|]|];
    try discriminate.
  cbn [from_option id get_index and_then lookup list_lookup get_field].
  destruct (assoc (lit "message") choice) as [[| | | | | |msg]|]; try discriminate.
  cbn [from_option id and_then get_field].
  destruct (assoc (lit "content") msg) as [[| | | |t| |]|]; try discriminate.
  intros [= ->]. reflexivity.
Qed.

(** *** The chat relay *)

Section ChatRelay.

Variable toISOString : Z -> jsstring.
Variables (openAiKey : jsstring) (up : reply jsval) (req : request) (s : state).
Variables w m p : jsval.
Hypothesis Hwaifu : get_field (r_body req) (lit "waifu") = Returned w.
Hypothesis Hmessage : get_field (r_body req) (lit "message") = Returned m.
Hypothesis Hprompt : get_field (r_body req) (lit "prompt") = Returned p.

(** When the guard fires, the handler answers 400 after its first log
    line and touches nothing else. *)
Lemma chat_handler_rejects :
  truthy w && truthy m && truthy p = false ->
  chat_handler toISOString openAiKey up req s =
    (Ok missing_fields, s,
     [ConsoleLog (incoming_log (toISOString (now s)) req)]).
Proof.
  intros Hf. exec. rewrite Hwaifu, Hmessage, Hprompt. cbn [settle app].
  destruct s. destruct (truthy w), (truthy m), (truthy p);
    try discriminate Hf; reflexivity.
Qed.

(** When the guard passes, the handler makes its call and maps the
    outcome to a response. *)
Lemma chat_handler_relays :
  truthy w && truthy m && truthy p = true ->
  let t := toISOString (now s) in
  let t' := toISOString (now s + latency up) in
  chat_handler toISOString openAiKey up req s =
    (Ok (match and_then (outcome up) first_choice_content with
         | Returned v => Res 200 (JObj [(lit "response", v)])
         | Threw _ => something_went_wrong
         end),
     {| now := now s + latency up; timers := timers s; hits := hits s |},
     [ ConsoleLog (incoming_log t req);
       ConsoleLog [JStr (lit "Making OpenAI API call at"); JStr t];
       AxiosPost completion_url (completion_request p m) (completion_headers openAiKey) ]
     ++ match outcome up with
        | Returned data =>
            ConsoleLog [JStr (lit "OpenAI API call successful at"); JStr t']
            :: match first_choice_content data with
               | Returned _ => []
               | Threw e => [ConsoleError (upstream_error_log t' e)]
               end
        | Threw e => [ConsoleError (upstream_error_log t' e)]
        end).
Proof.
  intros Hf. exec. rewrite Hwaifu, Hmessage, Hprompt. cbn [settle app].
  destruct (truthy w), (truthy m), (truthy p); try discriminate Hf.
  cbn [negb orb].
  destruct (outcome up) as [data | e]; cbn [settle and_then app]; [| reflexivity].
  destruct (first_choice_content data); reflexivity.
Qed.

(** The calls made when the guard passes: exactly the one completion
    request. *)
Lemma chat_handler_calls :
  truthy w && truthy m && truthy p = true ->
  upstream_calls (output (chat_handler toISOString openAiKey up req s)) =
    [AxiosPost completion_url (completion_request p m) (completion_headers openAiKey)].
Proof.
  intros Hf. rewrite (chat_handler_relays Hf).
  unfold output. cbn [snd app upstream_calls List.filter is_upstream_call].
  destruct (outcome up) as [data | e]; cbn [List.filter is_upstream_call]; [| reflexivity].
  destruct (first_choice_content data); reflexivity.
Qed.

End ChatRelay.

Lemma truthy_all_present (w m p : jsval) :
  present w -> present m -> present p -> truthy w && truthy m && truthy p = true.
Proof. intros Pw Pm Pp. rewrite !truthy_present by assumption. reflexivity. Qed.

(** The guard on a body that can be destructured: a chat request in
    which [waifu], [message] or [prompt] is missing or empty is answered
    with HTTP 400 and the body [{ error: "Missing required fields" }],
    and no upstream call is made. *)
Theorem chat_missing_field_is_400
    (toISOString : Z -> jsstring) (openAiKey : jsstring) (up : reply jsval)
    (req : request) (s : state) (w m p : jsval) :
  get_field (r_body req) (lit "waifu") = Returned w ->
  get_field (r_body req) (lit "message") = Returned m ->
  get_field (r_body req) (lit "prompt") = Returned p ->
  missing_or_empty w \/ missing_or_empty m \/ missing_or_empty p ->
  let run := chat_handler toISOString openAiKey up req s in
  value run = Ok (Res 400 (JObj [(lit "error", JStr (lit "Missing required fields"))])) /\
  upstream_calls (output run) = [] /\
  final run = s.
Proof.
  intros Hw Hm Hp Hmiss run. subst run.
  rewrite (chat_handler_rejects toISOString openAiKey up req s w m p Hw Hm Hp).
  - repeat split.
  - destruct Hmiss as [H | [H | H]]; apply falsy_missing_or_empty in H; rewrite H;
      destruct (truthy w); try destruct (truthy m); reflexivity.
Qed.

(** The specification's example: [{message: "hi", prompt: "x"}] without
    [waifu]. *)
Lemma chat_missing_field_is_400_witness :
  let req := chat_request (JObj [(lit "message", JStr (lit "hi")); (lit "prompt", JStr (lit "x"))]) in
  let run := chat_handler sample_iso (lit "sk-test") (replied JNull) req initial in
  missing_or_empty JUndefined /\
  value run = Ok (Res 400 (JObj [(lit "error", JStr (lit "Missing required fields"))])) /\
  upstream_calls (output run) = [] /\
  final run = initial.
Proof.
  split; [left; reflexivity |].
  apply (chat_missing_field_is_400 sample_iso (lit "sk-test") (replied JNull)
           (chat_request (JObj [(lit "message", JStr (lit "hi")); (lit "prompt", JStr (lit "x"))]))
           initial JUndefined (JStr (lit "hi")) (JStr (lit "x")));
    [reflexivity | reflexivity | reflexivity | left; left; reflexivity].
Defined.


(** C5: for a valid chat request the one upstream request carries the
    fixed model identifier and a two-element message list: first the
    system role with the caller's [prompt], then the user role with the
    caller's [message]. *)
Theorem chat_upstream_request_shape
    (toISOString : Z -> jsstring) (openAiKey : jsstring) (up : reply jsval)
    (req : request) (s : state) (w m p : jsval) :
  get_field (r_body req) (lit "waifu") = Returned w ->
  get_field (r_body req) (lit "message") = Returned m ->
  get_field (r_body req) (lit "prompt") = Returned p ->
  present w -> present m -> present p ->
  upstream_calls (output (chat_handler toISOString openAiKey up req s)) =
    [ AxiosPost (lit "https://api.openai.com/v1/chat/completions")
        (JObj [ (lit "model", JStr (lit "gpt-3.5-turbo"));
                (lit "messages",
                 JArr [ JObj [(lit "role", JStr (lit "system")); (lit "content", p)];
                        JObj [(lit "role", JStr (lit "user")); (lit "content", m)] ]) ])
        [ (lit "Content-Type", lit "application/json");
          (lit "Authorization", lit "Bearer " ++ openAiKey) ] ].
Proof.
  intros Hw Hm Hp Pw Pm Pp.
  rewrite (chat_handler_calls toISOString openAiKey up req s w m p Hw Hm Hp)
    by (apply truthy_all_present; assumption).
  reflexivity.
Qed.

Lemma chat_upstream_request_shape_witness :
  let req := chat_request (chat_body (JStr (lit "Aiko")) (JStr (lit "hi"))
                             (JStr (lit "You are Aiko"))) in
  present (JStr (lit "Aiko")) /\
  upstream_calls (output (chat_handler sample_iso (lit "sk-test")
                            (replied (completion_of (JStr (lit "Hello!")))) req initial)) =
    [ AxiosPost (lit "https://api.openai.com/v1/chat/completions")
        (JObj [ (lit "model", JStr (lit "gpt-3.5-turbo"));
                (lit "messages",
                 JArr [ JObj [(lit "role", JStr (lit "system"));
                              (lit "content", JStr (lit "You are Aiko"))];
                        JObj [(lit "role", JStr (lit "user"));
                              (lit "content", JStr (lit "hi"))] ]) ])
        [ (lit "Content-Type", lit "application/json");
          (lit "Authorization", lit "Bearer " ++ lit "sk-test") ] ].
Proof.
  assert (P : forall a r, present (JStr (a :: r))) by (intros a r; eexists; split; [reflexivity | discriminate]).
  split; [apply P |].
  apply (chat_upstream_request_shape sample_iso (lit "sk-test")
           (replied (completion_of (JStr (lit "Hello!"))))
           (chat_request (chat_body (JStr (lit "Aiko")) (JStr (lit "hi")) (JStr (lit "You are Aiko"))))
           initial (JStr (lit "Aiko")) (JStr (lit "hi")) (JStr (lit "You are Aiko")));
    solve [reflexivity | apply P].
Defined.

(** A provider reply whose first choice has a message without content:
    nothing throws, and the handler answers 200 with an undefined
    [response]. *)
Example content_missing_is_undefined :
  first_choice_content (JObj [(lit "choices", JArr [JObj [(lit "message", JObj [])]])])
  = Returned JUndefined.
Proof. reflexivity. Qed.

(** A provider reply without choices: the read of [choices[0].message]
    throws. *)
Example no_choices_throws :
  first_choice_content (JObj [(lit "choices", JArr [])])
  = Threw (type_error (lit "message")).
Proof. reflexivity. Qed.

(** C1, as specified, fails: a 2xx reply whose first choice carries a
    message without [content] is a malformed response, yet the handler
    answers 200 (with no text), not 500. *)
Lemma chat_contract_as_specified_fails : ~ chat_contract_as_specified.
Proof.
  intros H.
  specialize (H sample_iso (lit "sk-test")
                (replied (JObj [(lit "choices", JArr [JObj [(lit "message", JObj [])]])]))
                (chat_request (chat_body (JStr (lit "Aiko")) (JStr (lit "hi"))
                                 (JStr (lit "You are Aiko"))))
                initial (JStr (lit "Aiko")) (JStr (lit "hi")) (JStr (lit "You are Aiko"))
                eq_refl eq_refl eq_refl).
  assert (P : forall a r, present (JStr (a :: r)))
    by (intros a r; eexists; split; [reflexivity | discriminate]).
  specialize (H (P _ _) (P _ _) (P _ _)).
  destruct H as [_ H]. vm_compute in H. discriminate H.
Qed.

(** C1, amended: for a chat request whose three fields are present, the
    relay makes exactly one upstream call and answers either 200 with
    [{ response: v }], [v] being what [data.choices[0].message.content]
    evaluates to on the provider's reply (the text, when the reply has
    the assumed shape), or 500 with the fixed body
    [{ error: "Something went wrong" }] when the call is rejected or the
    read of [data.choices[0].message.content] throws; the 500 body never
    depends on the error. *)
Theorem chat_relay_one_call_200_or_500
    (toISOString : Z -> jsstring) (openAiKey : jsstring) (up : reply jsval)
    (req : request) (s : state) (w m p : jsval) :
  get_field (r_body req) (lit "waifu") = Returned w ->
  get_field (r_body req) (lit "message") = Returned m ->
  get_field (r_body req) (lit "prompt") = Returned p ->
  present w -> present m -> present p ->
  let run := chat_handler toISOString openAiKey up req s in
  length (upstream_calls (output run)) = 1%nat /\
  (forall e, outcome up = Threw e ->
     value run = Ok (Res 500 (JObj [(lit "error", JStr (lit "Something went wrong"))]))) /\
  (forall data e, outcome up = Returned data -> first_choice_content data = Threw e ->
     value run = Ok (Res 500 (JObj [(lit "error", JStr (lit "Something went wrong"))]))) /\
  (forall data v, outcome up = Returned data -> first_choice_content data = Returned v ->
     value run = Ok (Res 200 (JObj [(lit "response", v)]))) /\
  (forall data text, outcome up = Returned data -> completion_text data = Some text ->
     value run = Ok (Res 200 (JObj [(lit "response", JStr text)]))).
Proof.
  intros Hw Hm Hp Pw Pm Pp run.
  assert (Hcalls : length (upstream_calls (output run)) = 1%nat).
  { subst run.
    rewrite (chat_handler_calls toISOString openAiKey up req s w m p Hw Hm Hp)
      by (apply truthy_all_present; assumption).
    reflexivity. }
  subst run.
  rewrite (chat_handler_relays toISOString openAiKey up req s w m p Hw Hm Hp) in *
    by (apply truthy_all_present; assumption).
  unfold value. cbn [fst].
  split; [exact Hcalls |]. repeat split.
  - intros e ->. reflexivity.
  - intros data e -> Hc. cbn [and_then]. rewrite Hc. reflexivity.
  - intros data v -> Hc. cbn [and_then]. rewrite Hc. reflexivity.
  - intros data text -> Hc. cbn [and_then].
    rewrite (first_choice_content_text data text Hc). reflexivity.
Qed.

(** The specification's example: the provider answers "Hello!". *)
Lemma chat_relay_one_call_200_or_500_witness :
  let req := chat_request (chat_body (JStr (lit "Aiko")) (JStr (lit "hi"))
                             (JStr (lit "You are Aiko"))) in
  let run := chat_handler sample_iso (lit "sk-test")
               (replied (completion_of (JStr (lit "Hello!")))) req initial in
  present (JStr (lit "Aiko")) /\
  length (upstream_calls (output run)) = 1%nat /\
  value run = Ok (Res 200 (JObj [(lit "response", JStr (lit "Hello!"))])).
Proof.
  assert (P : forall a r, present (JStr (a :: r)))
    by (intros a r; eexists; split; [reflexivity | discriminate]).
  split; [apply P |].
  destruct (chat_relay_one_call_200_or_500 sample_iso (lit "sk-test")
              (replied (completion_of (JStr (lit "Hello!"))))
              (chat_request (chat_body (JStr (lit "Aiko")) (JStr (lit "hi"))
                               (JStr (lit "You are Aiko"))))
              initial (JStr (lit "Aiko")) (JStr (lit "hi")) (JStr (lit "You are Aiko"))
              eq_refl eq_refl eq_refl (P _ _) (P _ _) (P _ _))
    as (Hone & _ & _ & _ & Htext).
  split; [exact Hone |].
  exact (Htext _ (lit "Hello!") eq_refl eq_refl).
Defined.

(** C6: the credential reaches nothing but the Authorization header of
    the call to the provider. With the same request, the same provider
    reply and the same state, two credentials give the same response, the
    same final state and the same effects (console lines included) once
    the Authorization header is set aside; and every outbound call
    carries the credential in that header only. *)
Theorem credential_only_in_authorization_header
    (toISOString : Z -> jsstring) (key1 key2 : jsstring) (up : reply jsval)
    (req : request) (s : state) :
  let run1 := chat_handler toISOString key1 up req s in
  let run2 := chat_handler toISOString key2 up req s in
  value run1 = value run2 /\
  final run1 = final run2 /\
  List.map without_authorization (output run1) = List.map without_authorization (output run2) /\
  (forall url data headers, In (AxiosPost url data headers) (output run1) ->
     headers = [ (lit "Content-Type", lit "application/json");
                 (lit "Authorization", lit "Bearer " ++ key1) ] /\
     List.filter (fun h => negb (bool_decide (fst h = lit "Authorization"))) headers
       = [ (lit "Content-Type", lit "application/json") ]).
Proof.
  intros run1 run2. subst run1 run2.
  destruct (get_field (r_body req) (lit "waifu")) as [w | e] eqn:Hw.
  2: { exec. rewrite Hw. cbn [settle app fst snd].
       do 3 (split; [reflexivity |]).
       intros url data headers [H | []]. discriminate H. }
  destruct (get_field (r_body req) (lit "message")) as [m | e] eqn:Hm.
  2: { exec. rewrite Hw, Hm. cbn [settle app fst snd].
       do 3 (split; [reflexivity |]).
       intros url data headers [H | []]. discriminate H. }
  destruct (get_field (r_body req) (lit "prompt")) as [p | e] eqn:Hp.
  2: { exec. rewrite Hw, Hm, Hp. cbn [settle app fst snd].
       do 3 (split; [reflexivity |]).
       intros url data headers [H | []]. discriminate H. }
  destruct (truthy w && truthy m && truthy p) eqn:Hguard.
  - rewrite !(chat_handler_relays toISOString _ up req s w m p Hw Hm Hp Hguard).
    unfold value, final, output. cbn [fst snd].
    split; [reflexivity |]. split; [reflexivity |]. split.
    + rewrite !map_app. reflexivity.
    + intros url data headers Hin. apply in_app_or in Hin.
      destruct Hin as [Hin | Hin].
      * destruct Hin as [H | [H | [H | []]]]; try discriminate H.
        injection H as <- <- <-. split; reflexivity.
      * exfalso. destruct (outcome up) as [d | e].
        -- destruct Hin as [H | Hin]; [discriminate H |].
           destruct (first_choice_content d); [destruct Hin |].
           destruct Hin as [H | []]; discriminate H.
        -- destruct Hin as [H | []]; discriminate H.
  - rewrite !(chat_handler_rejects toISOString _ up req s w m p Hw Hm Hp Hguard).
    unfold value, final, output. cbn [fst snd].
    do 3 (split; [reflexivity |]).
    intros url data headers [H | []]. discriminate H.
Qed.

Lemma credential_only_in_authorization_header_witness :
  let req := chat_request (chat_body (JStr (lit "Aiko")) (JStr (lit "hi"))
                             (JStr (lit "You are Aiko"))) in
  let up := replied (completion_of (JStr (lit "Hello!"))) in
  let run1 := chat_handler sample_iso (lit "sk-one") up req initial in
  let run2 := chat_handler sample_iso (lit "sk-two") up req initial in
  In (AxiosPost completion_url
        (completion_request (JStr (lit "You are Aiko")) (JStr (lit "hi")))
        (completion_headers (lit "sk-one"))) (output run1) /\
  value run1 = value run2 /\
  List.map without_authorization (output run1) = List.map without_authorization (output run2) /\
  List.filter (fun h => negb (bool_decide (fst h = lit "Authorization")))
    (completion_headers (lit "sk-one")) = [(lit "Content-Type", lit "application/json")].
Proof.
  assert (Hin : In (AxiosPost completion_url
                      (completion_request (JStr (lit "You are Aiko")) (JStr (lit "hi")))
                      (completion_headers (lit "sk-one")))
                   (output (chat_handler sample_iso (lit "sk-one")
                              (replied (completion_of (JStr (lit "Hello!"))))
                              (chat_request (chat_body (JStr (lit "Aiko")) (JStr (lit "hi"))
                                               (JStr (lit "You are Aiko")))) initial)))
    by (right; right; left; reflexivity).
  split; [exact Hin |].
  destruct (credential_only_in_authorization_header sample_iso (lit "sk-one") (lit "sk-two")
              (replied (completion_of (JStr (lit "Hello!"))))
              (chat_request (chat_body (JStr (lit "Aiko")) (JStr (lit "hi"))
                               (JStr (lit "You are Aiko")))) initial)
    as (Hv & _ & Hout & Hhdr).
  split; [exact Hv |]. split; [exact Hout |].
  exact (proj2 (Hhdr _ _ _ Hin)).
Defined.

(** C7: [waifu] influences neither the upstream call nor the response.
    Two chat requests that agree on [message] and [prompt] and both carry
    a [waifu] produce, on the same provider reply, the same upstream
    request and the same response. *)
Theorem waifu_does_not_influence_relay
    (toISOString : Z -> jsstring) (openAiKey : jsstring) (up : reply jsval)
    (req1 req2 : request) (s : state) (w1 w2 m p : jsval) :
  get_field (r_body req1) (lit "waifu") = Returned w1 ->
  get_field (r_body req2) (lit "waifu") = Returned w2 ->
  get_field (r_body req1) (lit "message") = Returned m ->
  get_field (r_body req2) (lit "message") = Returned m ->
  get_field (r_body req1) (lit "prompt") = Returned p ->
  get_field (r_body req2) (lit "prompt") = Returned p ->
  present w1 -> present w2 -> present m -> present p ->
  let run1 := chat_handler toISOString openAiKey up req1 s in
  let run2 := chat_handler toISOString openAiKey up req2 s in
  upstream_calls (output run1) = upstream_calls (output run2) /\
  value run1 = value run2.
Proof.
  intros Hw1 Hw2 Hm1 Hm2 Hp1 Hp2 Pw1 Pw2 Pm Pp run1 run2. subst run1 run2.
  rewrite (chat_handler_calls toISOString openAiKey up req1 s w1 m p Hw1 Hm1 Hp1)
    by (apply truthy_all_present; assumption).
  rewrite (chat_handler_calls toISOString openAiKey up req2 s w2 m p Hw2 Hm2 Hp2)
    by (apply truthy_all_present; assumption).
  split; [reflexivity |].
  rewrite (chat_handler_relays toISOString openAiKey up req1 s w1 m p Hw1 Hm1 Hp1)
    by (apply truthy_all_present; assumption).
  rewrite (chat_handler_relays toISOString openAiKey up req2 s w2 m p Hw2 Hm2 Hp2)
    by (apply truthy_all_present; assumption).
  reflexivity.
Qed.

Lemma waifu_does_not_influence_relay_witness :
  let up := replied (completion_of (JStr (lit "Hello!"))) in
  let req1 := chat_request (chat_body (JStr (lit "Aiko")) (JStr (lit "hi")) (JStr (lit "Be kind"))) in
  let req2 := chat_request (chat_body (JStr (lit "Rin")) (JStr (lit "hi")) (JStr (lit "Be kind"))) in
  let run1 := chat_handler sample_iso (lit "sk-test") up req1 initial in
  let run2 := chat_handler sample_iso (lit "sk-test") up req2 initial in
  (present (JStr (lit "Aiko")) /\ present (JStr (lit "Rin"))) /\
  upstream_calls (output run1) = upstream_calls (output run2) /\
  value run1 = value run2.
Proof.
  assert (P : forall a r, present (JStr (a :: r)))
    by (intros a r; eexists; split; [reflexivity | discriminate]).
  split; [split; apply P |].
  apply (waifu_does_not_influence_relay sample_iso (lit "sk-test")
           (replied (completion_of (JStr (lit "Hello!"))))
           (chat_request (chat_body (JStr (lit "Aiko")) (JStr (lit "hi")) (JStr (lit "Be kind"))))
           (chat_request (chat_body (JStr (lit "Rin")) (JStr (lit "hi")) (JStr (lit "Be kind"))))
           initial (JStr (lit "Aiko")) (JStr (lit "Rin")) (JStr (lit "hi")) (JStr (lit "Be kind")));
    solve [reflexivity | apply P].
Defined.

(** *** Start-up and the application *)

Section Application.

Variable toISOString : Z -> jsstring.

Lemma startup_without_credential
    (env : gmap string jsstring) (tick : tick_env) (s : state) :
  truthy (getenv env "OPENAI_API_KEY") = false ->
  startup toISOString env tick s =
    (Exit 1, s,
     [ ConsoleError [ JStr (lit "Error: OPENAI_API_KEY environment variable is not set at");
                      JStr (toISOString (now s)) ];
       ProcessExit 1 ]).
Proof.
  intros Hf. unfold startup. exec. rewrite Hf. reflexivity.
Qed.

(** With the credential but without the consumer tokens the script dies
    where it builds the publish client. *)
Lemma startup_without_consumer_tokens
    (env : gmap string jsstring) (tick : tick_env) (s : state) (key : jsstring) :
  env !! "OPENAI_API_KEY" = Some key ->
  key <> [] ->
  truthy (getenv env "TWITTER_APP_SECRET") && truthy (getenv env "TWITTER_APP_KEY") = false ->
  startup toISOString env tick s = (Throw invalid_consumer_tokens, s, []).
Proof.
  intros Hk Hne Htok. unfold startup. exec. unfold getenv at 1 2. rewrite Hk.
  cbn [from_option truthy]. destruct key as [| c r]; [exfalso; apply Hne; reflexivity |].
  cbn [length Nat.eqb negb app].
  destruct (truthy (getenv env "TWITTER_APP_SECRET")),
           (truthy (getenv env "TWITTER_APP_KEY")); try discriminate Htok; reflexivity.
Qed.

(** With the credential and the consumer tokens the script runs to its
    end: the first tick has made its publish call (or, for a text that is
    too long, logged and set its timer) before the server listens. *)
Lemma startup_with_credential
    (env : gmap string jsstring) (tick : tick_env) (s : state) (key : jsstring) :
  env !! "OPENAI_API_KEY" = Some key ->
  key <> [] ->
  truthy (getenv env "TWITTER_APP_SECRET") && truthy (getenv env "TWITTER_APP_KEY") = true ->
  let t := toISOString (now s) in
  let tweet := compose_tweet (getRandomMessage cryptoFlirtMessages (random tick)) t in
  let listening :=
    [ ConsoleLog [JStr (lit "Starting the Waifu Backend at"); JStr t];
      AppListen (if truthy (getenv env "PORT") then getenv env "PORT" else JNum (3000 # 1))
                (lit "0.0.0.0") ] in
  startup toISOString env tick s =
    if (length tweet <=? 280)%nat then
      (Ok (registered_layers key), s, TweetV2 tweet :: listening)
    else
      (Ok (registered_layers key),
       {| now := now s; timers := timers s ++ [(now s + 3600000, PostToX)]; hits := hits s |},
       ConsoleLog [JStr (lit "Tweet too long at " ++ t ++ lit ": " ++ tweet)] :: listening).
Proof.
  intros Hk Hne Htok t tweet listening. subst t tweet listening.
  unfold startup. exec. unfold getenv at 1 2. rewrite Hk.
  cbn [from_option truthy]. destruct key as [| c r]; [exfalso; apply Hne; reflexivity |].
  cbn [length Nat.eqb negb app].
  destruct (truthy (getenv env "TWITTER_APP_SECRET")),
           (truthy (getenv env "TWITTER_APP_KEY")); try discriminate Htok.
  cbn [negb orb].
  destruct (length (compose_tweet _ _) <=? 280)%nat; destruct s; reflexivity.
Qed.

(** The credential is falsy, or it is a non-empty string. *)
Lemma startup_cases (env : gmap string jsstring) :
  (truthy (getenv env "OPENAI_API_KEY") = false /\
   (env !! "OPENAI_API_KEY" = None \/ env !! "OPENAI_API_KEY" = Some []))
  \/ (exists key, env !! "OPENAI_API_KEY" = Some key /\ key <> []).
Proof.
  unfold getenv. destruct (env !! "OPENAI_API_KEY") as [[| c r] |].
  - left. split; [reflexivity | right; reflexivity].
  - right. exists (c :: r). split; [reflexivity | discriminate].
  - left. split; [reflexivity | left; reflexivity].
Qed.

(** The limiter lets a request through exactly when [within_limit] says so. *)
Lemma limiter_hit_decides (windowMs : Z) (max : nat) (ip : string) (s : state) :
  value (limiter_hit windowMs max ip s) = Ok (within_limit windowMs max ip s) /\
  output (limiter_hit windowMs max ip s) = [] /\
  now (final (limiter_hit windowMs max ip s)) = now s /\
  timers (final (limiter_hit windowMs max ip s)) = timers s.
Proof.
  unfold limiter_hit, within_limit, value, output, final. cbn [fst snd now timers].
  repeat split.
  destruct (hits s !! ip) as [[n reset] |]; [| reflexivity].
  destruct (now s <? reset); reflexivity.
Qed.

(** A script that ran to its end registered the six layers and is
    listening; a script that is listening ran to its end. *)
Lemma startup_registers_layers
    (env : gmap string jsstring) (tick : tick_env) (s : state) :
  (forall app, value (startup toISOString env tick s) = Ok app ->
     exists key, env !! "OPENAI_API_KEY" = Some key /\ key <> [] /\
                 app = registered_layers key) /\
  (forall port host, In (AppListen port host) (output (startup toISOString env tick s)) ->
     exists key, env !! "OPENAI_API_KEY" = Some key /\ key <> []).
Proof.
  destruct (startup_cases env) as [[Hf _] | (key & Hk & Hne)].
  - rewrite (startup_without_credential env tick s Hf).
    unfold value, output. cbn [fst snd].
    split; [intros app H; discriminate H |].
    intros port host [H | [H | []]]; discriminate H.
  - destruct (truthy (getenv env "TWITTER_APP_SECRET")
              && truthy (getenv env "TWITTER_APP_KEY")) eqn:Htok.
    + rewrite (startup_with_credential env tick s key Hk Hne Htok). cbv zeta.
      destruct (length (compose_tweet _ _) <=? 280)%nat;
        unfold value, output; cbn [fst snd];
        (split; [intros app [= <-]; exists key; auto | intros _ _ _; exists key; auto]).
    + rewrite (startup_without_consumer_tokens env tick s key Hk Hne Htok).
      unfold value, output. cbn [fst snd].
      split; [intros app H; discriminate H | intros port host []].
Qed.

End Application.

(** C9: without the credential in the environment the script ends the
    process with exit code 1 (not zero) before the server listens; and
    the server listens, with a chat route, only when the credential is
    set, the chat handler then holding that credential. *)
Theorem startup_requires_credential
    (toISOString : Z -> jsstring) (env : gmap string jsstring) (tick : tick_env) (s : state) :
  (env !! "OPENAI_API_KEY" = None ->
     value (startup toISOString env tick s) = Exit 1 /\ 1 <> 0 /\
     List.filter is_listen (output (startup toISOString env tick s)) = [] /\
     last (output (startup toISOString env tick s)) = Some (ProcessExit 1)) /\
  (forall app, value (startup toISOString env tick s) = Ok app ->
     exists key, env !! "OPENAI_API_KEY" = Some key /\ key <> [] /\
                 app = registered_layers key) /\
  (forall port host, In (AppListen port host) (output (startup toISOString env tick s)) ->
     exists key, env !! "OPENAI_API_KEY" = Some key /\ key <> []).
Proof.
  split; [| exact (startup_registers_layers toISOString env tick s)].
  intros Hnone.
  rewrite (startup_without_credential toISOString env tick s)
    by (unfold getenv; rewrite Hnone; reflexivity).
  unfold value, output. cbn [fst snd]. repeat split; discriminate.
Qed.

Lemma startup_requires_credential_witness :
  (∅ : gmap string jsstring) !! "OPENAI_API_KEY" = None /\
  value (startup sample_iso ∅ sample_tick initial) = Exit 1 /\
  List.filter is_listen (output (startup sample_iso ∅ sample_tick initial)) = [] /\
  (exists key, sample_env !! "OPENAI_API_KEY" = Some key /\ key <> [] /\
     value (startup sample_iso sample_env sample_tick initial) = Ok (registered_layers key)).
Proof.
  split; [reflexivity |].
  destruct (startup_requires_credential sample_iso ∅ sample_tick initial) as [Hexit _].
  destruct (Hexit eq_refl) as (Hv & _ & Hl & _).
  split; [exact Hv |]. split; [exact Hl |].
  destruct (startup_requires_credential sample_iso sample_env sample_tick initial)
    as (_ & Hrun & _).
  destruct (Hrun (registered_layers (lit "sk-test")) ltac:(vm_compute; reflexivity))
    as (key & Hk & Hne & Happ).
  exists key. split; [exact Hk |]. split; [exact Hne |]. rewrite <- Happ.
  vm_compute. reflexivity.
Defined.

(** A path matches its own route, and so does the same path in another
    case or with a slash at the end. *)
Example path_matches_examples :
  path_matches (lit "/health") (lit "/health") = true /\
  path_matches (lit "/api/chat") (lit "/API/Chat/") = true /\
  path_matches (lit "/api/chat") (lit "/api/chat/x") = false /\
  path_matches (lit "/") (lit "/") = true /\
  path_matches (lit "/") (lit "/health") = false.
Proof. vm_compute. repeat split. Qed.

(** GET /health on the running application: the request passes the CORS
    and JSON layers, is counted by the limiter, and reaches the route
    only if the limiter lets it through. *)
Lemma dispatch_health
    (toISOString : Z -> jsstring) (key : jsstring) (up : reply jsval)
    (req : request) (s : state) :
  r_method req = GET ->
  r_path req = lit "/health" ->
  json_error req = false ->
  value (dispatch toISOString (registered_layers key) up req s) =
    Ok (if within_limit 60000 10 (r_ip req) s then health_ok else RateLimited).
Proof.
  intros Hm Hp Hj. unfold registered_layers. cbn [dispatch].
  rewrite Hm, Hp, Hj. cbn [method_eqb andb].
  change (method_matches GET GET && path_matches (lit "/health") (lit "/health")) with true.
  cbn match.
  unfold mbind, M_bind, bind.
  pose proof (limiter_hit_decides 60000 10 (r_ip req) s) as (Hv & Ho & _).
  destruct (limiter_hit 60000 10 (r_ip req) s) as [[r s1] out1].
  unfold value, output in Hv, Ho. cbn [fst snd] in Hv, Ho. subst r out1.
  destruct (within_limit 60000 10 (r_ip req) s); reflexivity.
Qed.

(** C8: the code does not keep this claim. The health route is
    registered after [app.use(limiter)], so a health probe is counted
    like any request: of eleven GET /health of one client, five seconds
    apart, the first ten are answered 200 with [{ status: "OK" }] and the
    eleventh, fifty seconds after the first, is answered by the limiter. *)
Theorem health_eleventh_probe_is_rate_limited :
  let probe := fun t : Z => (t, health_request, replied JNull) in
  value (serve sample_iso (registered_layers (lit "sk-test"))
           (List.map probe [0; 5000; 10000; 15000; 20000; 25000; 30000; 35000; 40000;
                            45000; 50000])
           initial)
  = Ok (replicate 10 (Res 200 (JObj [(lit "status", JStr (lit "OK"))])) ++ [RateLimited]).
Proof. vm_compute. reflexivity. Qed.

(** *** The scheduled poster *)

Section ScheduledPoster.

Variable toISOString : Z -> jsstring.
Variable pool : list jsstring.

(** A number in [0, 1) selects a template of a non-empty pool. *)
Lemma getRandomMessage_in_pool (r : Q) :
  (0 <= r)%Q -> (r < 1)%Q -> pool <> [] ->
  exists t, getRandomMessage pool r = Some t /\ In t pool.
Proof.
  intros H0 H1 Hne. unfold getRandomMessage.
  set (n := Z.of_nat (length pool)).
  assert (Hn : 0 < n) by (subst n; destruct pool; [congruence | cbn [length]; lia]).
  assert (HnQ : (inject_Z 0 < inject_Z n)%Q) by (rewrite <- Zlt_Qlt; exact Hn).
  assert (Hlo : Qfloor (inject_Z 0) <= Qfloor (r * inject_Z n)).
  { apply Qfloor_resp_le. change (0 <= r * inject_Z n)%Q.
    apply Qmult_le_0_compat; [exact H0 | apply Qlt_le_weak; exact HnQ]. }
  rewrite Qfloor_Z in Hlo.
  assert (Hhi : Qfloor (r * inject_Z n) < n).
  { rewrite Zlt_Qlt. eapply Qle_lt_trans; [apply Qfloor_le |].
    rewrite <- (Qmult_1_l (inject_Z n)) at 2.
    apply Qmult_lt_compat_r; assumption. }
  destruct (Qfloor (r * inject_Z n) <? 0) eqn:Hneg; [apply Z.ltb_lt in Hneg; lia |].
  destruct (pool !! Z.to_nat (Qfloor (r * inject_Z n))) as [t |] eqn:Hl.
  - exists t. split; [reflexivity |].
    apply list_elem_of_In. eapply list_elem_of_lookup_2. exact Hl.
  - apply lookup_ge_None in Hl. subst n. lia.
Qed.

(** Whatever the number, the selection is a template of the pool or
    [undefined]. *)
Lemma getRandomMessage_some_in_pool (r : Q) (t : jsstring) :
  getRandomMessage pool r = Some t -> In t pool.
Proof.
  unfold getRandomMessage.
  destruct (Qfloor (r * inject_Z (Z.of_nat (length pool))) <? 0); [discriminate |].
  intros Hl. apply list_elem_of_In. eapply list_elem_of_lookup_2. exact Hl.
Qed.

(** One tick, in full. *)
Lemma postToX_run (tick : tick_env) (s : state) :
  let t := toISOString (now s) in
  let tweet := compose_tweet (getRandomMessage pool (random tick)) t in
  let done := now s + latency (publish tick) in
  postToX toISOString pool tick s =
    if (length tweet <=? 280)%nat then
      (Ok tt,
       {| now := done; timers := timers s ++ [(done + 3600000, PostToX)]; hits := hits s |},
       TweetV2 tweet ::
       match outcome (publish tick) with
       | Returned _ =>
           [ConsoleLog [JStr (lit "Posted to X at " ++ toISOString done ++ lit ": " ++ tweet)]]
       | Threw e =>
           [ConsoleError [JStr (lit "Error posting to X at " ++ toISOString done ++ lit ":");
                          error_object e]]
       end)
    else
      (Ok tt,
       {| now := now s; timers := timers s ++ [(now s + 3600000, PostToX)]; hits := hits s |},
       [ConsoleLog [JStr (lit "Tweet too long at " ++ t ++ lit ": " ++ tweet)]]).
Proof.
  intros t tweet done. subst t tweet done. exec.
  destruct (length (compose_tweet _ _) <=? 280)%nat; [| reflexivity].
  cbn [fst snd settle app now timers hits].
  destruct (outcome (publish tick)) as [[] | e]; reflexivity.
Qed.

(** A tick always ends normally and leaves a timer pending. *)
Lemma postToX_completes (tick : tick_env) (s : state) :
  exists s' out, postToX toISOString pool tick s = (Ok tt, s', out) /\ timers s' <> [].
Proof.
  rewrite postToX_run. cbv zeta.
  destruct (length (compose_tweet _ _) <=? 280)%nat;
    eexists; eexists; (split; [reflexivity |]); cbn [timers];
    intros H; apply app_eq_nil in H; destruct H as [_ H]; discriminate H.
Qed.

(** With a timer pending, the loop runs one callback per tick it is
    given: nothing a tick does stops the ticks after it. *)
Lemma event_loop_runs_all (ticks : list tick_env) :
  forall s, timers s <> [] ->
  value (event_loop toISOString pool ticks s) = Ok (length ticks).
Proof.
  induction ticks as [| tick rest IH]; intros s Hne; [reflexivity |].
  cbn [event_loop length]. unfold mbind, M_bind, bind, fire_next.
  destruct (timers s) as [| [due []] tl] eqn:Htimers; [congruence |].
  destruct (postToX_completes tick {| now := Z.max (now s) due; timers := tl; hits := hits s |})
    as (s2 & out & Hrun & Hpending).
  rewrite Hrun. specialize (IH s2 Hpending).
  destruct (event_loop toISOString pool rest s2) as [[r s3] out3].
  unfold value in IH. cbn [fst] in IH. subst r. reflexivity.
Qed.

End ScheduledPoster.

(** C3: whatever a tick does (publishes, fails to publish, or skips an
    over-long text), it ends by setting the timer of the next tick one
    hour (3 600 000 ms, a constant) after the moment it completes, and
    any number of further ticks then run. *)
Theorem poster_always_reschedules
    (toISOString : Z -> jsstring) (pool : list jsstring) (tick : tick_env) (s : state) :
  let run := postToX toISOString pool tick s in
  value run = Ok tt /\
  timers (final run) = timers s ++ [(now (final run) + one_hour, PostToX)] /\
  one_hour = 3600000 /\
  (forall ticks, value (event_loop toISOString pool ticks (final run)) = Ok (length ticks)).
Proof.
  intros run. subst run.
  assert (Hloop : forall ticks,
            value (event_loop toISOString pool ticks (final (postToX toISOString pool tick s)))
            = Ok (length ticks)).
  { intros ticks. apply event_loop_runs_all.
    destruct (postToX_completes toISOString pool tick s) as (s' & out & -> & Hp). exact Hp. }
  revert Hloop. rewrite postToX_run. cbv zeta.
  destruct (length (compose_tweet _ _) <=? 280)%nat; intros Hloop;
    unfold value, final; cbn [fst snd now timers]; auto.
Qed.

(** C4: a tick whose composed text is longer than 280 units publishes
    nothing (the text is neither cut nor replaced; the tick only logs);
    any other tick makes exactly one publish call, with the composed text
    as it is. *)
Theorem poster_publishes_iff_within_limit
    (toISOString : Z -> jsstring) (pool : list jsstring) (tick : tick_env) (s : state) :
  let tweet := compose_tweet (getRandomMessage pool (random tick)) (toISOString (now s)) in
  let out := output (postToX toISOString pool tick s) in
  ((280 < length tweet)%nat ->
     published out = [] /\
     out = [ConsoleLog [JStr (lit "Tweet too long at " ++ toISOString (now s) ++ lit ": " ++ tweet)]]) /\
  ((length tweet <= 280)%nat -> published out = [tweet]).
Proof.
  intros tweet out. subst out. rewrite postToX_run. cbv zeta. fold tweet.
  destruct (length tweet <=? 280)%nat eqn:Hlen.
  - apply Nat.leb_le in Hlen. split; [intros Hlong; lia |]. intros _.
    unfold output. cbn [snd].
    destruct (outcome (publish tick)); reflexivity.
  - apply Nat.leb_gt in Hlen. split; [| intros Hshort; lia]. intros _.
    split; reflexivity.
Qed.

Lemma poster_publishes_iff_within_limit_witness :
  let long := [replicate 300 97%N] in
  let tick := {| random := 0%Q; publish := mk_reply 120 (Returned tt) |} in
  (280 < length (compose_tweet (getRandomMessage long 0%Q) (sample_iso 0)))%nat /\
  published (output (postToX sample_iso long tick initial)) = [] /\
  (length (compose_tweet (getRandomMessage cryptoFlirtMessages 0%Q) (sample_iso 0)) <= 280)%nat /\
  published (output (postToX sample_iso cryptoFlirtMessages tick initial)) =
    [compose_tweet (getRandomMessage cryptoFlirtMessages 0%Q) (sample_iso 0)].
Proof.
  assert (Hlong : (280 < length (compose_tweet (getRandomMessage [replicate 300 97%N] 0%Q)
                                   (sample_iso 0)))%nat)
    by (apply Nat.ltb_lt; vm_compute; reflexivity).
  assert (Hshort : (length (compose_tweet (getRandomMessage cryptoFlirtMessages 0%Q)
                              (sample_iso 0)) <= 280)%nat)
    by (apply Nat.leb_le; vm_compute; reflexivity).
  split; [exact Hlong |].
  split.
  - exact (proj1 (proj1 (poster_publishes_iff_within_limit sample_iso [replicate 300 97%N]
                           {| random := 0%Q; publish := mk_reply 120 (Returned tt) |} initial)
                    Hlong)).
  - split; [exact Hshort |].
    exact (proj2 (poster_publishes_iff_within_limit sample_iso cryptoFlirtMessages
                    {| random := 0%Q; publish := mk_reply 120 (Returned tt) |} initial)
             Hshort).
Defined.

(** The lengths of the five templates, in code units. *)
Example pool_lengths :
  List.map (fun t : jsstring => length t) cryptoFlirtMessages = [67; 67; 80; 71; 55]%nat.
Proof. reflexivity. Qed.

Lemma pool_template_length (t : jsstring) :
  In t cryptoFlirtMessages -> (length t <= 80)%nat.
Proof.
  intros Hin.
  assert (Hall : forallb (fun t : jsstring => (length t <=? 80)%nat) cryptoFlirtMessages = true)
    by reflexivity.
  rewrite forallb_forall in Hall. apply Nat.leb_le. apply Hall. exact Hin.
Qed.

(** Whatever is selected from the script's pool, the composed text has
    at most 102 units. *)
Lemma pool_tweet_length (r : Q) (stamp : jsstring) :
  (length (compose_tweet (getRandomMessage cryptoFlirtMessages r) stamp) <= 102)%nat.
Proof.
  pose proof (length_compose_tweet (getRandomMessage cryptoFlirtMessages r) stamp) as Hlen.
  destruct (getRandomMessage cryptoFlirtMessages r) as [t |] eqn:Hsel.
  - apply getRandomMessage_some_in_pool in Hsel. apply pool_template_length in Hsel.
    cbn [template_string] in Hlen. lia.
  - change (length (template_string None)) with 9%nat in Hlen. lia.
Qed.

(** C10: every template of the pool, composed with any timestamp cut to
    19 units, gives a text of at most 280 units; so no tick of the script
    takes the skip branch: each one makes exactly one publish call. *)
Theorem pool_tweets_fit_limit (toISOString : Z -> jsstring) :
  (forall t stamp, In t cryptoFlirtMessages ->
     (length (compose_tweet (Some t) stamp) <= 280)%nat) /\
  (forall tick s,
     published (output (postToX toISOString cryptoFlirtMessages tick s)) =
       [compose_tweet (getRandomMessage cryptoFlirtMessages (random tick))
          (toISOString (now s))]).
Proof.
  split.
  - intros t stamp Hin. apply pool_template_length in Hin.
    pose proof (length_compose_tweet (Some t) stamp) as Hlen.
    cbn [template_string] in Hlen. lia.
  - intros tick s. rewrite postToX_run. cbv zeta.
    pose proof (pool_tweet_length (random tick) (toISOString (now s))) as Hlen.
    destruct (length (compose_tweet _ _) <=? 280)%nat eqn:Htest.
    + unfold output. cbn [snd]. destruct (outcome (publish tick)); reflexivity.
    + apply Nat.leb_gt in Htest. lia.
Qed.

Lemma pool_tweets_fit_limit_witness :
  let t := lit "Is that a new token in your pocket, or are you just happy to see me? "
             ++ [55357%N; 56841%N] in
  In t cryptoFlirtMessages /\
  (length (compose_tweet (Some t) (lit "2025-01-01T00:00:00.000Z")) <= 280)%nat.
Proof.
  assert (Hin : In (lit "Is that a new token in your pocket, or are you just happy to see me? "
                      ++ [55357%N; 56841%N]) cryptoFlirtMessages)
    by (right; right; right; left; reflexivity).
  split; [exact Hin |].
  exact (proj1 (pool_tweets_fit_limit sample_iso) _ (lit "2025-01-01T00:00:00.000Z") Hin).
Defined.

(** *** The three outcomes of a tick *)

Example tick_published :
  postToX sample_iso cryptoFlirtMessages
    {| random := (1 # 2)%Q; publish := mk_reply 120 (Returned tt) |} initial
  = (Ok tt, {| now := 120; timers := [(3600120, PostToX)]; hits := ∅ |},
     [ TweetV2 (lit "Mmm, your blockchain moves are turning me on, daddy! Let" ++ [8217%N]
                ++ lit "s stack those coins! " ++ [55357%N; 56504%N]
                ++ lit " | 2025-01-01 00:00:00");
       ConsoleLog [JStr (lit "Posted to X at 2025-01-01T00:00:00.000Z: "
                         ++ lit "Mmm, your blockchain moves are turning me on, daddy! Let"
                         ++ [8217%N] ++ lit "s stack those coins! " ++ [55357%N; 56504%N]
                         ++ lit " | 2025-01-01 00:00:00")] ]).
Proof. vm_compute. reflexivity. Qed.

Example tick_publish_failed :
  let e := {| e_message := lit "Request failed with code 403"; e_status := JUndefined;
              e_data := JUndefined; e_stack := lit "Error: Request failed with code 403" |} in
  let run := postToX sample_iso cryptoFlirtMessages
               {| random := 0%Q; publish := mk_reply 80 (Threw e) |} initial in
  value run = Ok tt /\ length (published (output run)) = 1%nat /\
  timers (final run) = [(3600080, PostToX)].
Proof. vm_compute. repeat split. Qed.

Example tick_skipped :
  let run := postToX sample_iso [replicate 300 97%N]
               {| random := 0%Q; publish := mk_reply 80 (Returned tt) |} initial in
  value run = Ok tt /\ published (output run) = [] /\
  timers (final run) = [(3600000, PostToX)].
Proof. vm_compute. repeat split. Qed.

(** *** The examples of the specification *)

Example chat_example_hello :
  value (chat_handler sample_iso (lit "sk-test") (replied (completion_of (JStr (lit "Hello!"))))
           (chat_request (chat_body (JStr (lit "Aiko")) (JStr (lit "hi"))
                            (JStr (lit "You are Aiko")))) initial)
  = Ok (Res 200 (JObj [(lit "response", JStr (lit "Hello!"))])).
Proof. vm_compute. reflexivity. Qed.

Example chat_example_missing_waifu :
  value (chat_handler sample_iso (lit "sk-test") (replied JNull)
           (chat_request (JObj [(lit "message", JStr (lit "hi")); (lit "prompt", JStr (lit "x"))]))
           initial)
  = Ok (Res 400 (JObj [(lit "error", JStr (lit "Missing required fields"))])).
Proof. vm_compute. reflexivity. Qed.

(** A request whose body was left unset has nothing to destructure: the
    handler throws before it answers. *)
Example chat_example_no_body :
  exists e,
    value (chat_handler sample_iso (lit "sk-test") (replied JNull) (chat_request JUndefined)
             initial) = Throw e.
Proof. eexists. vm_compute. reflexivity. Qed.

(** The eleventh request of a client at the instant of the first ten is
    answered by the limiter; arriving a minute after the first, it opens
    a new window and is answered by the route. *)
Example eleventh_health_request :
  value (serve sample_iso (registered_layers (lit "sk-test"))
           (replicate 11 (0, health_request, replied JNull)) initial)
  = Ok (replicate 10 health_ok ++ [RateLimited]) /\
  value (serve sample_iso (registered_layers (lit "sk-test"))
           (replicate 10 (0, health_request, replied JNull)
            ++ [(60000, health_request, replied JNull)]) initial)
  = Ok (replicate 11 health_ok).
Proof. split; vm_compute; reflexivity. Qed.

(** The router is blind to the case of the path and to a slash at its
    end, and serves HEAD from the GET routes. *)
Example chat_route_in_upper_case :
  value (dispatch sample_iso (registered_layers (lit "sk-test"))
           (replied (completion_of (JStr (lit "Hello!"))))
           {| r_method := POST; r_path := lit "/API/Chat/"; r_ip := "203.0.113.7";
              r_headers := JObj []; json_error := false;
              r_body := chat_body (JStr (lit "Aiko")) (JStr (lit "hi")) (JStr (lit "x")) |}
           initial)
  = Ok (Res 200 (JObj [(lit "response", JStr (lit "Hello!"))])).
Proof. vm_compute. reflexivity. Qed.

Example head_health :
  value (dispatch sample_iso (registered_layers (lit "sk-test")) (replied JNull)
           {| r_method := HEAD; r_path := lit "/health"; r_ip := "203.0.113.7";
              r_headers := JObj []; json_error := false; r_body := JUndefined |}
           initial)
  = Ok health_ok.
Proof. vm_compute. reflexivity. Qed.

(** A request that arrives after the window has passed is counted anew. *)
Example health_after_window :
  let busy := {| now := 60000; timers := []; hits := {[ "203.0.113.7" := (10%nat, 60000) ]} |} in
  value (dispatch sample_iso (registered_layers (lit "sk-test")) (replied JNull)
           health_request busy) = Ok health_ok.
Proof. vm_compute. reflexivity. Qed.

(* ===================================================================== *)
(** ** Further properties of the chat relay                               *)
(* ===================================================================== *)

(** A body that is neither [undefined] nor [null] can be destructured. *)
Lemma get_field_not_nullish (v : jsval) (name : jsstring) :
  nullish v = false -> get_field v name = Returned (opt_field v name).
Proof. unfold opt_field. destruct v; cbn; intros H; try discriminate H; reflexivity. Qed.

Lemma get_field_nullish (v : jsval) (name : jsstring) :
  nullish v = true -> get_field v name = Threw (type_error name).
Proof. destruct v; cbn; intros H; try discriminate H; reflexivity. Qed.

(** The handler on a body it cannot destructure. *)
Lemma chat_handler_throws
    (toISOString : Z -> jsstring) (key : jsstring) (up : reply jsval)
    (req : request) (s : state) :
  nullish (r_body req) = true ->
  chat_handler toISOString key up req s =
    (Throw (type_error (lit "waifu")), s,
     [ConsoleLog (incoming_log (toISOString (now s)) req)]).
Proof.
  intros Hn. exec. rewrite (get_field_nullish _ _ Hn). destruct s. reflexivity.
Qed.

(** X1: the guard of the chat handler is JavaScript truthiness. The
    answer is the 400 exactly when one of the three fields is falsy
    (missing, [null], [false], [0] or the empty string), and then no
    upstream call is made; otherwise the handler makes its one call and
    forwards [prompt] and [message] as they are, whatever their type. *)
Theorem chat_guard_is_truthiness
    (toISOString : Z -> jsstring) (key : jsstring) (up : reply jsval)
    (req : request) (s : state) (w m p : jsval) :
  get_field (r_body req) (lit "waifu") = Returned w ->
  get_field (r_body req) (lit "message") = Returned m ->
  get_field (r_body req) (lit "prompt") = Returned p ->
  let run := chat_handler toISOString key up req s in
  (value run = Ok missing_fields <-> truthy w && truthy m && truthy p = false) /\
  (truthy w && truthy m && truthy p = false -> upstream_calls (output run) = []) /\
  (truthy w && truthy m && truthy p = true ->
     upstream_calls (output run) =
       [AxiosPost completion_url
          (JObj [ (lit "model", JStr (lit "gpt-3.5-turbo"));
                  (lit "messages",
                   JArr [ JObj [(lit "role", JStr (lit "system")); (lit "content", p)];
                          JObj [(lit "role", JStr (lit "user")); (lit "content", m)] ]) ])
          (completion_headers key)]).
Proof.
  intros Hw Hm Hp run. subst run.
  destruct (truthy w && truthy m && truthy p) eqn:Hguard.
  - rewrite (chat_handler_calls toISOString key up req s w m p Hw Hm Hp Hguard).
    rewrite (chat_handler_relays toISOString key up req s w m p Hw Hm Hp Hguard).
    unfold value. cbn [fst].
    split; [| split; [intros H; discriminate H | intros _; reflexivity]].
    split; [| intros H; discriminate H].
    destruct (and_then (outcome up) first_choice_content); intros H; discriminate H.
  - rewrite (chat_handler_rejects toISOString key up req s w m p Hw Hm Hp Hguard).
    unfold value, output. cbn [fst snd].
    split; [split; reflexivity |]. split; [intros _; reflexivity | intros H; discriminate H].
Qed.

(** A numeric zero for [waifu] is present, yet rejected; an object for
    [prompt] is forwarded. *)
Lemma chat_guard_is_truthiness_witness :
  let zero := chat_request (chat_body (JNum 0%Q) (JStr (lit "hi")) (JStr (lit "x"))) in
  let obj := chat_request (chat_body (JBool true) (JStr (lit "hi"))
                             (JObj [(lit "a", JNum 1%Q)])) in
  value (chat_handler sample_iso (lit "sk-test") (replied JNull) zero initial) = Ok missing_fields /\
  upstream_calls (output (chat_handler sample_iso (lit "sk-test") (replied JNull) obj initial)) =
    [AxiosPost completion_url
       (JObj [ (lit "model", JStr (lit "gpt-3.5-turbo"));
               (lit "messages",
                JArr [ JObj [(lit "role", JStr (lit "system"));
                             (lit "content", JObj [(lit "a", JNum 1%Q)])];
                       JObj [(lit "role", JStr (lit "user")); (lit "content", JStr (lit "hi"))] ]) ])
       (completion_headers (lit "sk-test"))].
Proof.
  split.
  - apply (proj1 (chat_guard_is_truthiness sample_iso (lit "sk-test") (replied JNull)
                    (chat_request (chat_body (JNum 0%Q) (JStr (lit "hi")) (JStr (lit "x"))))
                    initial (JNum 0%Q) (JStr (lit "hi")) (JStr (lit "x"))
                    eq_refl eq_refl eq_refl)).
    reflexivity.
  - apply (proj2 (proj2 (chat_guard_is_truthiness sample_iso (lit "sk-test") (replied JNull)
                    (chat_request (chat_body (JBool true) (JStr (lit "hi"))
                                     (JObj [(lit "a", JNum 1%Q)])))
                    initial (JBool true) (JStr (lit "hi")) (JObj [(lit "a", JNum 1%Q)])
                    eq_refl eq_refl eq_refl))).
    reflexivity.
Defined.

(** X2: the handler answers every request whose body can be
    destructured, with status 200, 400 or 500, whatever the provider
    does; on a body that is [undefined] or [null] it throws before it
    answers, having made no call and changed nothing. *)
Theorem chat_handler_answers_unless_body_nullish
    (toISOString : Z -> jsstring) (key : jsstring) (up : reply jsval)
    (req : request) (s : state) :
  let run := chat_handler toISOString key up req s in
  (nullish (r_body req) = false ->
     exists status body, value run = Ok (Res status body) /\
                         (status = 200 \/ status = 400 \/ status = 500)) /\
  (nullish (r_body req) = true ->
     (exists e, value run = Throw e) /\ upstream_calls (output run) = [] /\ final run = s).
Proof.
  intros run. subst run. split; intros Hn.
  - pose proof (get_field_not_nullish _ (lit "waifu") Hn) as Hw.
    pose proof (get_field_not_nullish _ (lit "message") Hn) as Hm.
    pose proof (get_field_not_nullish _ (lit "prompt") Hn) as Hp.
    destruct (truthy (opt_field (r_body req) (lit "waifu"))
              && truthy (opt_field (r_body req) (lit "message"))
              && truthy (opt_field (r_body req) (lit "prompt"))) eqn:Hguard.
    + rewrite (chat_handler_relays toISOString key up req s _ _ _ Hw Hm Hp Hguard).
      unfold value. cbn [fst].
      destruct (and_then (outcome up) first_choice_content).
      * eexists; eexists; split; [reflexivity | auto].
      * eexists; eexists; split; [reflexivity | auto].
    + rewrite (chat_handler_rejects toISOString key up req s _ _ _ Hw Hm Hp Hguard).
      unfold value. cbn [fst]. eexists; eexists; split; [reflexivity | auto].
  - rewrite (chat_handler_throws toISOString key up req s Hn).
    unfold value, output, final. cbn [fst snd]. split; [eexists; reflexivity | auto].
Qed.

Lemma chat_handler_answers_unless_body_nullish_witness :
  (exists status body,
     value (chat_handler sample_iso (lit "sk-test") (replied JNull)
              (chat_request (JArr [])) initial) = Ok (Res status body) /\
     (status = 200 \/ status = 400 \/ status = 500)) /\
  (exists e, value (chat_handler sample_iso (lit "sk-test") (replied JNull)
                      (chat_request JUndefined) initial) = Throw e).
Proof.
  split.
  - exact (proj1 (chat_handler_answers_unless_body_nullish sample_iso (lit "sk-test")
                    (replied JNull) (chat_request (JArr [])) initial) eq_refl).
  - exact (proj1 (proj2 (chat_handler_answers_unless_body_nullish sample_iso (lit "sk-test")
                    (replied JNull) (chat_request JUndefined) initial) eq_refl)).
Defined.

Lemma get_index_not_nullish (v : jsval) (i : nat) :
  nullish v = false -> get_index v i = Returned (opt_index v i).
Proof. unfold opt_index. destruct v; cbn; intros H; try discriminate H; reflexivity. Qed.

Lemma get_index_nullish (v : jsval) (i : nat) :
  nullish v = true -> get_index v i = Threw (type_error (index_key i)).
Proof. destruct v; cbn; intros H; try discriminate H; reflexivity. Qed.

Lemma opt_field_nullish (v : jsval) (name : jsstring) :
  nullish v = true -> opt_field v name = JUndefined.
Proof. destruct v; cbn; intros H; try discriminate H; reflexivity. Qed.

Lemma opt_index_nullish (v : jsval) (i : nat) :
  nullish v = true -> opt_index v i = JUndefined.
Proof. destruct v; cbn; intros H; try discriminate H; reflexivity. Qed.

(** The read [data.choices[0].message.content] throws exactly when
    [data?.choices?.[0]?.message] is [undefined] or [null]; otherwise it
    yields the [content] of that message. *)
Lemma first_choice_content_cases (data : jsval) :
  let message := opt_field (opt_index (opt_field data (lit "choices")) 0) (lit "message") in
  match first_choice_content data with
  | Returned v => nullish message = false /\ v = opt_field message (lit "content")
  | Threw _ => nullish message = true
  end.
Proof.
  intros message. subst message. unfold first_choice_content.
  destruct (nullish data) eqn:H0.
  { rewrite (get_field_nullish _ _ H0). cbn [and_then].
    rewrite (opt_field_nullish _ _ H0). reflexivity. }
  rewrite (get_field_not_nullish _ _ H0). cbn [and_then].
  destruct (nullish (opt_field data (lit "choices"))) eqn:H1.
  { rewrite (get_index_nullish _ _ H1). cbn [and_then].
    rewrite (opt_index_nullish _ _ H1). reflexivity. }
  rewrite (get_index_not_nullish _ _ H1). cbn [and_then].
  destruct (nullish (opt_index (opt_field data (lit "choices")) 0)) eqn:H2.
  { rewrite (get_field_nullish _ _ H2). cbn [and_then].
    rewrite (opt_field_nullish _ _ H2). reflexivity. }
  rewrite (get_field_not_nullish _ _ H2). cbn [and_then].
  destruct (nullish (opt_field (opt_index (opt_field data (lit "choices")) 0) (lit "message")))
    eqn:H3.
  { rewrite (get_field_nullish _ _ H3). reflexivity. }
  rewrite (get_field_not_nullish _ _ H3). split; reflexivity.
Qed.

Section ChatRelayMore.

Variable toISOString : Z -> jsstring.
Variables (key : jsstring) (up : reply jsval) (req : request) (s : state).

(** X3: the chat handler touches nothing but the console and the
    provider. Its effects are console lines and at most one completion
    call (no publish, no exit, no listen); it leaves the timers and the
    limiter's counters as they were; the clock moves by the latency of
    the call when one is made and not at all otherwise. *)
Theorem chat_handler_frame :
  let run := chat_handler toISOString key up req s in
  Forall (fun e => is_console e || is_upstream_call e = true) (output run) /\
  (length (upstream_calls (output run)) <= 1)%nat /\
  timers (final run) = timers s /\
  hits (final run) = hits s /\
  now (final run) = now s + match upstream_calls (output run) with
                            | [] => 0
                            | _ :: _ => latency up
                            end.
Proof.
  intros run. subst run.
  destruct (nullish (r_body req)) eqn:Hn.
  { rewrite (chat_handler_throws toISOString key up req s Hn).
    unfold output, final. cbn [fst snd upstream_calls List.filter is_upstream_call length].
    repeat split; [repeat constructor | lia | lia]. }
  pose proof (get_field_not_nullish _ (lit "waifu") Hn) as Hw.
  pose proof (get_field_not_nullish _ (lit "message") Hn) as Hm.
  pose proof (get_field_not_nullish _ (lit "prompt") Hn) as Hp.
  destruct (truthy (opt_field (r_body req) (lit "waifu"))
            && truthy (opt_field (r_body req) (lit "message"))
            && truthy (opt_field (r_body req) (lit "prompt"))) eqn:Hguard.
  - rewrite (chat_handler_calls toISOString key up req s _ _ _ Hw Hm Hp Hguard).
    rewrite (chat_handler_relays toISOString key up req s _ _ _ Hw Hm Hp Hguard).
    unfold output, final. cbn [fst snd length now timers hits].
    repeat split; [| lia].
    apply Forall_app. split; [repeat constructor |].
    destruct (outcome up) as [data | e]; [| repeat constructor].
    destruct (first_choice_content data); repeat constructor.
  - rewrite (chat_handler_rejects toISOString key up req s _ _ _ Hw Hm Hp Hguard).
    unfold output, final. cbn [fst snd upstream_calls List.filter is_upstream_call length].
    repeat split; [repeat constructor | lia | lia].
Qed.

Variables w m p : jsval.
Hypothesis Hwaifu : get_field (r_body req) (lit "waifu") = Returned w.
Hypothesis Hmessage : get_field (r_body req) (lit "message") = Returned m.
Hypothesis Hprompt : get_field (r_body req) (lit "prompt") = Returned p.

(** The [console.error] lines of the handler. *)
Lemma chat_handler_error_lines :
  console_errors (output (chat_handler toISOString key up req s)) =
    if truthy w && truthy m && truthy p then
      match and_then (outcome up) first_choice_content,
            outcome up with
      | Returned _, _ => []
      | Threw e, Returned _ =>
          [ConsoleError (upstream_error_log (toISOString (now s + latency up)) e)]
      | Threw _, Threw e =>
          [ConsoleError (upstream_error_log (toISOString (now s + latency up)) e)]
      end
    else [].
Proof.
  destruct (truthy w && truthy m && truthy p) eqn:Hguard.
  - rewrite (chat_handler_relays toISOString key up req s w m p Hwaifu Hmessage Hprompt Hguard).
    unfold output. cbn [snd app console_errors List.filter is_console_error].
    destruct (outcome up) as [data | e]; cbn [and_then List.filter is_console_error];
      [| reflexivity].
    destruct (first_choice_content data); reflexivity.
  - rewrite (chat_handler_rejects toISOString key up req s w m p Hwaifu Hmessage Hprompt Hguard).
    reflexivity.
Qed.

End ChatRelayMore.

(** X4: what went wrong upstream goes to the console and only there.
    The handler writes exactly one [console.error] line when it answers
    500, carrying the error's message, status, data and stack, and none
    when it answers 200 or 400. *)
Theorem chat_error_is_logged_once
    (toISOString : Z -> jsstring) (key : jsstring) (up : reply jsval)
    (req : request) (s : state) (w m p : jsval) :
  get_field (r_body req) (lit "waifu") = Returned w ->
  get_field (r_body req) (lit "message") = Returned m ->
  get_field (r_body req) (lit "prompt") = Returned p ->
  let run := chat_handler toISOString key up req s in
  (value run = Ok something_went_wrong -> length (console_errors (output run)) = 1%nat) /\
  (value run <> Ok something_went_wrong -> console_errors (output run) = []) /\
  (forall e, truthy w && truthy m && truthy p = true -> outcome up = Threw e ->
     console_errors (output run) =
       [ConsoleError [ JStr (lit "OpenAI API Error at");
                       JStr (toISOString (now s + latency up)); JStr (lit ":");
                       JObj [ (lit "message", JStr (e_message e));
                              (lit "status", e_status e);
                              (lit "data", e_data e);
                              (lit "stack", JStr (e_stack e)) ] ]]).
Proof.
  intros Hw Hm Hp run. subst run.
  rewrite (chat_handler_error_lines toISOString key up req s w m p Hw Hm Hp).
  destruct (truthy w && truthy m && truthy p) eqn:Hguard.
  - rewrite (chat_handler_relays toISOString key up req s w m p Hw Hm Hp Hguard).
    unfold value. cbn [fst].
    destruct (outcome up) as [data | e]; cbn [and_then].
    + destruct (first_choice_content data).
      * split; [intros H; discriminate H |]. split; [reflexivity |].
        intros e _ H; discriminate H.
      * split; [reflexivity |]. split; [intros H; exfalso; apply H; reflexivity |].
        intros e' _ H; discriminate H.
    + split; [reflexivity |]. split; [intros H; exfalso; apply H; reflexivity |].
      intros e' _ [= <-]. reflexivity.
  - rewrite (chat_handler_rejects toISOString key up req s w m p Hw Hm Hp Hguard).
    unfold value. cbn [fst].
    split; [intros H; discriminate H |]. split; [reflexivity |].
    intros e H; discriminate H.
Qed.

Lemma chat_error_is_logged_once_witness :
  let e := {| e_message := lit "Request failed with status code 401";
              e_status := JNum 401%Q;
              e_data := JObj [(lit "error", JStr (lit "invalid_api_key"))];
              e_stack := lit "AxiosError: Request failed with status code 401" |} in
  let run := chat_handler sample_iso (lit "sk-test") (mk_reply 90 (Threw e))
               (chat_request (chat_body (JStr (lit "Aiko")) (JStr (lit "hi"))
                                (JStr (lit "You are Aiko")))) initial in
  value run = Ok something_went_wrong /\
  console_errors (output run) =
    [ConsoleError [ JStr (lit "OpenAI API Error at"); JStr (sample_iso 90); JStr (lit ":");
                    JObj [ (lit "message", JStr (lit "Request failed with status code 401"));
                           (lit "status", JNum 401%Q);
                           (lit "data", JObj [(lit "error", JStr (lit "invalid_api_key"))]);
                           (lit "stack",
                            JStr (lit "AxiosError: Request failed with status code 401")) ] ]].
Proof.
  split; [reflexivity |].
  exact (proj2 (proj2 (chat_error_is_logged_once sample_iso (lit "sk-test")
           (mk_reply 90 (Threw {| e_message := lit "Request failed with status code 401";
                                  e_status := JNum 401%Q;
                                  e_data := JObj [(lit "error", JStr (lit "invalid_api_key"))];
                                  e_stack := lit "AxiosError: Request failed with status code 401" |}))
           (chat_request (chat_body (JStr (lit "Aiko")) (JStr (lit "hi"))
                            (JStr (lit "You are Aiko")))) initial
           (JStr (lit "Aiko")) (JStr (lit "hi")) (JStr (lit "You are Aiko"))
           eq_refl eq_refl eq_refl)) _ eq_refl eq_refl).
Defined.

(** X5: which provider replies end in a 500. For a request that passes
    the guard and a call that resolves with [data], the answer is the 500
    exactly when [data?.choices?.[0]?.message] is [undefined] or [null];
    in every other case it is a 200 whose [response] is the [content]
    property of that message, be it text, [null], a number or absent. *)
Theorem chat_reply_500_iff_no_message
    (toISOString : Z -> jsstring) (key : jsstring) (up : reply jsval)
    (req : request) (s : state) (w m p data : jsval) :
  get_field (r_body req) (lit "waifu") = Returned w ->
  get_field (r_body req) (lit "message") = Returned m ->
  get_field (r_body req) (lit "prompt") = Returned p ->
  truthy w && truthy m && truthy p = true ->
  outcome up = Returned data ->
  let message := opt_field (opt_index (opt_field data (lit "choices")) 0) (lit "message") in
  let run := chat_handler toISOString key up req s in
  (nullish message = true -> value run = Ok something_went_wrong) /\
  (nullish message = false ->
     value run = Ok (Res 200 (JObj [(lit "response", opt_field message (lit "content"))]))).
Proof.
  intros Hw Hm Hp Hguard Hup message run. subst run.
  rewrite (chat_handler_relays toISOString key up req s w m p Hw Hm Hp Hguard).
  unfold value. cbn [fst]. rewrite Hup. cbn [and_then].
  pose proof (first_choice_content_cases data) as Hc. cbv zeta in Hc. fold message in Hc.
  destruct (first_choice_content data) as [v | e].
  - destruct Hc as [Hnn ->]. split; [intros H; congruence | intros _; reflexivity].
  - split; [intros _; reflexivity | intros H; congruence].
Qed.

Lemma chat_reply_500_iff_no_message_witness :
  let req := chat_request (chat_body (JStr (lit "Aiko")) (JStr (lit "hi"))
                             (JStr (lit "You are Aiko"))) in
  value (chat_handler sample_iso (lit "sk-test") (replied (JStr (lit "<html>bad gateway</html>")))
           req initial) = Ok something_went_wrong /\
  value (chat_handler sample_iso (lit "sk-test") (replied (JObj [(lit "choices", JArr [])]))
           req initial) = Ok something_went_wrong /\
  value (chat_handler sample_iso (lit "sk-test") (replied (completion_of JNull))
           req initial) = Ok (Res 200 (JObj [(lit "response", JNull)])).
Proof.
  split; [| split].
  - exact (proj1 (chat_reply_500_iff_no_message sample_iso (lit "sk-test")
             (replied (JStr (lit "<html>bad gateway</html>")))
             (chat_request (chat_body (JStr (lit "Aiko")) (JStr (lit "hi"))
                              (JStr (lit "You are Aiko")))) initial
             (JStr (lit "Aiko")) (JStr (lit "hi")) (JStr (lit "You are Aiko")) _
             eq_refl eq_refl eq_refl eq_refl eq_refl) eq_refl).
  - exact (proj1 (chat_reply_500_iff_no_message sample_iso (lit "sk-test")
             (replied (JObj [(lit "choices", JArr [])]))
             (chat_request (chat_body (JStr (lit "Aiko")) (JStr (lit "hi"))
                              (JStr (lit "You are Aiko")))) initial
             (JStr (lit "Aiko")) (JStr (lit "hi")) (JStr (lit "You are Aiko")) _
             eq_refl eq_refl eq_refl eq_refl eq_refl) eq_refl).
  - exact (proj2 (chat_reply_500_iff_no_message sample_iso (lit "sk-test")
             (replied (completion_of JNull))
             (chat_request (chat_body (JStr (lit "Aiko")) (JStr (lit "hi"))
                              (JStr (lit "You are Aiko")))) initial
             (JStr (lit "Aiko")) (JStr (lit "hi")) (JStr (lit "You are Aiko")) _
             eq_refl eq_refl eq_refl eq_refl eq_refl) eq_refl).
Defined.

(** X19: the relay keeps no state between requests. The response and
    the upstream request of the chat handler are the same in any two
    states of the process (clock, timers, limiter counters): they depend
    on the request, the credential and the provider's reply alone. *)
Theorem chat_handler_is_stateless
    (toISOString : Z -> jsstring) (key : jsstring) (up : reply jsval)
    (req : request) (s1 s2 : state) :
  value (chat_handler toISOString key up req s1) = value (chat_handler toISOString key up req s2) /\
  upstream_calls (output (chat_handler toISOString key up req s1)) =
    upstream_calls (output (chat_handler toISOString key up req s2)).
Proof.
  destruct (nullish (r_body req)) eqn:Hn.
  { rewrite !(chat_handler_throws toISOString key up req _ Hn). split; reflexivity. }
  pose proof (get_field_not_nullish _ (lit "waifu") Hn) as Hw.
  pose proof (get_field_not_nullish _ (lit "message") Hn) as Hm.
  pose proof (get_field_not_nullish _ (lit "prompt") Hn) as Hp.
  destruct (truthy (opt_field (r_body req) (lit "waifu"))
            && truthy (opt_field (r_body req) (lit "message"))
            && truthy (opt_field (r_body req) (lit "prompt"))) eqn:Hguard.
  - rewrite !(chat_handler_calls toISOString key up req _ _ _ _ Hw Hm Hp Hguard).
    rewrite !(chat_handler_relays toISOString key up req _ _ _ _ Hw Hm Hp Hguard).
    split; reflexivity.
  - rewrite !(chat_handler_rejects toISOString key up req _ _ _ _ Hw Hm Hp Hguard).
    split; reflexivity.
Qed.

(* ===================================================================== *)
(** ** Further properties of the application                              *)
(* ===================================================================== *)

Lemma method_eqb_eq (a b : method) : method_eqb a b = true <-> a = b.
Proof. destruct a, b; cbn; split; intros H; try discriminate H; reflexivity. Qed.

Section Routing.

Variable toISOString : Z -> jsstring.
Variable key : jsstring.

(** The limiter of the script, run in front of a continuation. *)
Lemma limiter_hit_bind {A} (ip : string) (k : bool -> M A) (s : state) :
  (admitted ← limiter_hit 60000 10 ip; k admitted) s
  = k (within_limit 60000 10 ip s) (counted ip s).
Proof.
  unfold mbind, M_bind, bind, limiter_hit, within_limit, counted. cbn [fst snd].
  destruct (hits s !! ip) as [[n reset] |]; [destruct (now s <? reset) |];
    cbn [fst];
    match goal with |- context [k ?b ?st] => destruct (k b st) as [[r s2] out2] end;
    reflexivity.
Qed.

(** The application of the script, layer by layer. *)
Lemma dispatch_registered (up : reply jsval) (req : request) (s : state) :
  dispatch toISOString (registered_layers key) up req s =
    if method_eqb (r_method req) OPTIONS then (Ok CorsPreflight, s, [])
    else if json_error req then (Ok BodyParserError, s, [])
    else if within_limit 60000 10 (r_ip req) s then
      if method_matches GET (r_method req) && path_matches (lit "/health") (r_path req)
      then health_handler toISOString req (counted (r_ip req) s)
      else if method_matches GET (r_method req) && path_matches (lit "/") (r_path req)
      then root_handler toISOString req (counted (r_ip req) s)
      else if method_matches POST (r_method req) && path_matches (lit "/api/chat") (r_path req)
      then chat_handler toISOString key up req (counted (r_ip req) s)
      else (Ok NotFound, counted (r_ip req) s, [])
    else (Ok RateLimited, counted (r_ip req) s, []).
Proof.
  unfold registered_layers. cbn [dispatch].
  destruct (method_eqb (r_method req) OPTIONS); [reflexivity |].
  destruct (json_error req); [reflexivity |].
  rewrite limiter_hit_bind.
  destruct (within_limit 60000 10 (r_ip req) s); [| reflexivity].
  cbn [run_handler].
  destruct (method_matches GET (r_method req) && path_matches (lit "/health") (r_path req));
    [reflexivity |].
  destruct (method_matches GET (r_method req) && path_matches (lit "/") (r_path req));
    [reflexivity |].
  destruct (method_matches POST (r_method req) && path_matches (lit "/api/chat") (r_path req));
    reflexivity.
Qed.

(** The calls of the chat handler, whatever the request. *)
Lemma chat_handler_calls_inv (up : reply jsval) (req : request) (s : state) :
  upstream_calls (output (chat_handler toISOString key up req s)) <> [] ->
  exists w m p,
    get_field (r_body req) (lit "waifu") = Returned w /\
    get_field (r_body req) (lit "message") = Returned m /\
    get_field (r_body req) (lit "prompt") = Returned p /\
    truthy w && truthy m && truthy p = true.
Proof.
  intros Hcalls.
  destruct (nullish (r_body req)) eqn:Hn.
  { rewrite (chat_handler_throws toISOString key up req s Hn) in Hcalls.
    exfalso. apply Hcalls. reflexivity. }
  pose proof (get_field_not_nullish _ (lit "waifu") Hn) as Hw.
  pose proof (get_field_not_nullish _ (lit "message") Hn) as Hm.
  pose proof (get_field_not_nullish _ (lit "prompt") Hn) as Hp.
  destruct (truthy (opt_field (r_body req) (lit "waifu"))
            && truthy (opt_field (r_body req) (lit "message"))
            && truthy (opt_field (r_body req) (lit "prompt"))) eqn:Hguard.
  - eexists; eexists; eexists. repeat split; eassumption.
  - rewrite (chat_handler_rejects toISOString key up req s _ _ _ Hw Hm Hp Hguard) in Hcalls.
    exfalso. apply Hcalls. reflexivity.
Qed.

End Routing.

Lemma method_matches_POST (m : method) : method_matches POST m = true -> m = POST.
Proof. destruct m; cbn; intros H; try discriminate H; reflexivity. Qed.

Lemma path_matches_cases (route path : jsstring) :
  path_matches route path = true ->
  lower_case path = lower_case route \/ lower_case path = lower_case route ++ [47%N].
Proof.
  unfold path_matches. intros H. apply orb_prop in H.
  destruct H as [H | H]; apply bool_decide_eq_true in H; auto.
Qed.

(** X6: the provider is called for nothing but a chat request. If
    serving a request makes an upstream call, the request is a POST whose
    path is /api/chat or /api/chat/ in some case of the letters, its
    payload was parsable, its client is within the rate limit, and its
    three fields are truthy. *)
Theorem upstream_call_only_for_valid_chat
    (toISOString : Z -> jsstring) (key : jsstring) (up : reply jsval)
    (req : request) (s : state) :
  upstream_calls (output (dispatch toISOString (registered_layers key) up req s)) <> [] ->
  r_method req = POST /\
  (lower_case (r_path req) = lit "/api/chat" \/ lower_case (r_path req) = lit "/api/chat/") /\
  json_error req = false /\
  within_limit 60000 10 (r_ip req) s = true /\
  exists w m p,
    get_field (r_body req) (lit "waifu") = Returned w /\
    get_field (r_body req) (lit "message") = Returned m /\
    get_field (r_body req) (lit "prompt") = Returned p /\
    truthy w && truthy m && truthy p = true.
Proof.
  rewrite dispatch_registered.
  destruct (method_eqb (r_method req) OPTIONS); [intros H; exfalso; apply H; reflexivity |].
  destruct (json_error req); [intros H; exfalso; apply H; reflexivity |].
  destruct (within_limit 60000 10 (r_ip req) s); [| intros H; exfalso; apply H; reflexivity].
  destruct (method_matches GET (r_method req) && path_matches (lit "/health") (r_path req));
    [intros H; exfalso; apply H; reflexivity |].
  destruct (method_matches GET (r_method req) && path_matches (lit "/") (r_path req));
    [intros H; exfalso; apply H; reflexivity |].
  destruct (method_matches POST (r_method req) && path_matches (lit "/api/chat") (r_path req))
    eqn:Hroute; [| intros H; exfalso; apply H; reflexivity].
  apply andb_prop in Hroute. destruct Hroute as [Hm Hp].
  apply method_matches_POST in Hm. apply path_matches_cases in Hp.
  intros Hcalls. apply chat_handler_calls_inv in Hcalls.
  repeat split; assumption.
Qed.

Lemma upstream_call_only_for_valid_chat_witness :
  let req := {| r_method := POST; r_path := lit "/API/Chat/"; r_ip := "203.0.113.7";
                r_headers := JObj []; json_error := false;
                r_body := chat_body (JStr (lit "Aiko")) (JStr (lit "hi"))
                            (JStr (lit "You are Aiko")) |} in
  upstream_calls (output (dispatch sample_iso (registered_layers (lit "sk-test"))
                            (replied (completion_of (JStr (lit "Hello!")))) req initial)) <> [] /\
  r_method req = POST /\
  (lower_case (r_path req) = lit "/api/chat" \/ lower_case (r_path req) = lit "/api/chat/").
Proof.
  assert (H : upstream_calls
                (output (dispatch sample_iso (registered_layers (lit "sk-test"))
                           (replied (completion_of (JStr (lit "Hello!"))))
                           {| r_method := POST; r_path := lit "/API/Chat/";
                              r_ip := "203.0.113.7"; r_headers := JObj [];
                              json_error := false;
                              r_body := chat_body (JStr (lit "Aiko")) (JStr (lit "hi"))
                                          (JStr (lit "You are Aiko")) |} initial)) <> [])
    by (vm_compute; discriminate).
  split; [exact H |].
  destruct (upstream_call_only_for_valid_chat sample_iso (lit "sk-test")
              (replied (completion_of (JStr (lit "Hello!"))))
              {| r_method := POST; r_path := lit "/API/Chat/"; r_ip := "203.0.113.7";
                 r_headers := JObj []; json_error := false;
                 r_body := chat_body (JStr (lit "Aiko")) (JStr (lit "hi"))
                             (JStr (lit "You are Aiko")) |} initial H)
    as (Hm & Hp & _).
  split; [exact Hm | exact Hp].
Defined.

(** X7: the limiter stands in front of every route. Once a client is
    over the limit, any request of its (health, root, chat or unknown
    route) is answered by the limiter: no handler runs, nothing is
    logged, no upstream call is made; the request is still counted. *)
Theorem limiter_guards_every_route
    (toISOString : Z -> jsstring) (key : jsstring) (up : reply jsval)
    (req : request) (s : state) :
  r_method req <> OPTIONS ->
  json_error req = false ->
  within_limit 60000 10 (r_ip req) s = false ->
  dispatch toISOString (registered_layers key) up req s =
    (Ok RateLimited, counted (r_ip req) s, []).
Proof.
  intros Hm Hj Hlim. rewrite dispatch_registered, Hj, Hlim.
  destruct (method_eqb (r_method req) OPTIONS) eqn:Ho; [| reflexivity].
  apply method_eqb_eq in Ho. contradiction.
Qed.

Lemma limiter_guards_every_route_witness :
  let busy := {| now := 1000; timers := []; hits := {[ "203.0.113.7" := (10%nat, 60000) ]} |} in
  let req := chat_request (chat_body (JStr (lit "Aiko")) (JStr (lit "hi"))
                             (JStr (lit "You are Aiko"))) in
  within_limit 60000 10 (r_ip req) busy = false /\
  dispatch sample_iso (registered_layers (lit "sk-test"))
    (replied (completion_of (JStr (lit "Hello!")))) req busy =
    (Ok RateLimited, counted (r_ip req) busy, []).
Proof.
  split; [reflexivity |].
  apply (limiter_guards_every_route sample_iso (lit "sk-test")
           (replied (completion_of (JStr (lit "Hello!"))))
           (chat_request (chat_body (JStr (lit "Aiko")) (JStr (lit "hi"))
                            (JStr (lit "You are Aiko"))))
           {| now := 1000; timers := []; hits := {[ "203.0.113.7" := (10%nat, 60000) ]} |});
    [discriminate | reflexivity | reflexivity].
Defined.

(** X8: the CORS and JSON layers come before the limiter. A preflight
    and a request with an unparsable payload are answered by those layers
    and are not counted against the client: the state is unchanged, also
    for a client that is over the limit. *)
Theorem preflight_and_bad_json_are_not_counted
    (toISOString : Z -> jsstring) (key : jsstring) (up : reply jsval)
    (req : request) (s : state) :
  (r_method req = OPTIONS ->
     dispatch toISOString (registered_layers key) up req s = (Ok CorsPreflight, s, [])) /\
  (r_method req <> OPTIONS -> json_error req = true ->
     dispatch toISOString (registered_layers key) up req s = (Ok BodyParserError, s, [])).
Proof.
  rewrite dispatch_registered. split.
  - intros ->. reflexivity.
  - intros Hm ->. destruct (method_eqb (r_method req) OPTIONS) eqn:Ho; [| reflexivity].
    apply method_eqb_eq in Ho. contradiction.
Qed.

Lemma preflight_and_bad_json_are_not_counted_witness :
  let busy := {| now := 1000; timers := []; hits := {[ "203.0.113.7" := (10%nat, 60000) ]} |} in
  let bad := {| r_method := POST; r_path := lit "/api/chat"; r_ip := "203.0.113.7";
                r_headers := JObj []; json_error := true; r_body := JUndefined |} in
  dispatch sample_iso (registered_layers (lit "sk-test")) (replied JNull) bad busy
  = (Ok BodyParserError, busy, []).
Proof.
  apply (proj2 (preflight_and_bad_json_are_not_counted sample_iso (lit "sk-test") (replied JNull)
                  {| r_method := POST; r_path := lit "/api/chat"; r_ip := "203.0.113.7";
                     r_headers := JObj []; json_error := true; r_body := JUndefined |}
                  {| now := 1000; timers := [];
                     hits := {[ "203.0.113.7" := (10%nat, 60000) ]} |}));
    [discriminate | reflexivity].
Defined.

(** X9: GET / is answered 200 with the text "Waifu Backend is running!"
    whenever the request gets past the JSON layer and the limiter; the
    handler writes one log line and leaves everything but the limiter's
    count as it was, whatever the credential and the provider. *)
Theorem root_route_answers_text
    (toISOString : Z -> jsstring) (key : jsstring) (up : reply jsval)
    (req : request) (s : state) :
  r_method req = GET ->
  r_path req = lit "/" ->
  json_error req = false ->
  within_limit 60000 10 (r_ip req) s = true ->
  dispatch toISOString (registered_layers key) up req s =
    (Ok (Res 200 (JStr (lit "Waifu Backend is running!"))),
     counted (r_ip req) s,
     [ConsoleLog [JStr (lit "Root route requested at"); JStr (toISOString (now s))]]).
Proof.
  intros Hm Hp Hj Hlim. rewrite dispatch_registered, Hm, Hp, Hj, Hlim.
  cbn [method_eqb].
  change (method_matches GET GET && path_matches (lit "/health") (lit "/")) with false.
  change (method_matches GET GET && path_matches (lit "/") (lit "/")) with true.
  reflexivity.
Qed.

Lemma root_route_answers_text_witness :
  let req := {| r_method := GET; r_path := lit "/"; r_ip := "198.51.100.4";
                r_headers := JObj []; json_error := false; r_body := JUndefined |} in
  within_limit 60000 10 (r_ip req) initial = true /\
  value (dispatch sample_iso (registered_layers (lit "sk-test")) (replied JNull) req initial)
  = Ok (Res 200 (JStr (lit "Waifu Backend is running!"))).
Proof.
  split; [reflexivity |].
  rewrite (root_route_answers_text sample_iso (lit "sk-test") (replied JNull)
             {| r_method := GET; r_path := lit "/"; r_ip := "198.51.100.4";
                r_headers := JObj []; json_error := false; r_body := JUndefined |}
             initial eq_refl eq_refl eq_refl eq_refl).
  reflexivity.
Defined.

Section Burst.

Variable toISOString : Z -> jsstring.
Variable key : jsstring.
Variable ip : string.

(** One health request of a client whose window is running: answered by
    the route while the count allows, counted either way; neither the
    clock nor the end of the window moves. *)
Lemma dispatch_health_in_window
    (up : reply jsval) (req : request) (s : state) (k : nat) (reset : Z) :
  health_of ip req ->
  hits s !! ip = Some (k, reset) ->
  now s < reset ->
  exists s' out,
    dispatch toISOString (registered_layers key) up req s =
      (Ok (if (S k <=? 10)%nat then health_ok else RateLimited), s', out) /\
    hits s' !! ip = Some (S k, reset) /\ now s' = now s.
Proof.
  intros (Hm & Hp & Hip & Hj) Hhits Hnow.
  rewrite dispatch_registered, Hm, Hp, Hip, Hj. cbn [method_eqb].
  change (method_matches GET GET && path_matches (lit "/health") (lit "/health")) with true.
  cbn match.
  assert (Hcounted : hits (counted ip s) !! ip = Some (S k, reset)).
  { unfold counted. cbn [hits]. rewrite lookup_insert_eq, Hhits.
    replace (now s <? reset) with true by (symmetry; apply Z.ltb_lt; lia). reflexivity. }
  assert (Hlimit : within_limit 60000 10 ip s = (S k <=? 10)%nat).
  { unfold within_limit. rewrite Hhits.
    replace (now s <? reset) with true by (symmetry; apply Z.ltb_lt; lia). reflexivity. }
  rewrite Hlimit.
  destruct (S k <=? 10)%nat.
  - exec. eexists; eexists. split; [reflexivity |]. split; [exact Hcounted | reflexivity].
  - eexists; eexists. split; [reflexivity |]. split; [exact Hcounted | reflexivity].
Qed.

(** One health request of a client with no window running: it opens a
    window of one minute and is answered by the route. *)
Lemma dispatch_health_opens_window (up : reply jsval) (req : request) (s : state) :
  health_of ip req ->
  (forall n reset, hits s !! ip = Some (n, reset) -> reset <= now s) ->
  exists s' out,
    dispatch toISOString (registered_layers key) up req s = (Ok health_ok, s', out) /\
    hits s' !! ip = Some (1%nat, now s + 60000) /\ now s' = now s.
Proof.
  intros (Hm & Hp & Hip & Hj) Hended.
  rewrite dispatch_registered, Hm, Hp, Hip, Hj. cbn [method_eqb].
  change (method_matches GET GET && path_matches (lit "/health") (lit "/health")) with true.
  cbn match.
  assert (Hcounted : hits (counted ip s) !! ip = Some (1%nat, now s + 60000)).
  { unfold counted. cbn [hits]. rewrite lookup_insert_eq.
    destruct (hits s !! ip) as [[n reset] |] eqn:Hh; [| reflexivity].
    specialize (Hended n reset eq_refl).
    replace (now s <? reset) with false by (symmetry; apply Z.ltb_ge; lia). reflexivity. }
  assert (Hlimit : within_limit 60000 10 ip s = true).
  { unfold within_limit.
    destruct (hits s !! ip) as [[n reset] |] eqn:Hh; [| reflexivity].
    specialize (Hended n reset eq_refl).
    replace (now s <? reset) with false by (symmetry; apply Z.ltb_ge; lia). reflexivity. }
  rewrite Hlimit. exec.
  eexists; eexists. split; [reflexivity |]. split; [exact Hcounted | reflexivity].
Qed.

(** The responses to [n] health requests when [k] are already counted. *)
Lemma capped_responses_step (k n : nat) :
  (if (S k <=? 10)%nat then health_ok else RateLimited)
  :: (replicate (Nat.min n (10 - S k)) health_ok ++ replicate (n - (10 - S k)) RateLimited)
  = replicate (Nat.min (S n) (10 - k)) health_ok ++ replicate (S n - (10 - k)) RateLimited.
Proof.
  destruct (S k <=? 10)%nat eqn:Hc.
  - apply Nat.leb_le in Hc.
    replace (10 - k)%nat with (S (10 - S k)) by lia.
    cbn [Nat.min replicate app Nat.sub]. reflexivity.
  - apply Nat.leb_gt in Hc.
    replace (10 - k)%nat with 0%nat by lia.
    replace (10 - S k)%nat with 0%nat by lia.
    rewrite !Nat.min_0_r, !Nat.sub_0_r. reflexivity.
Qed.

(** Health requests of one client that all arrive before its running
    window ends. *)
Lemma serve_health_in_window (reqs : list (Z * request * reply jsval)) :
  forall (s : state) (k : nat) (reset : Z),
  Forall (fun r => health_of ip (snd (fst r)) /\ fst (fst r) < reset) reqs ->
  hits s !! ip = Some (k, reset) ->
  now s < reset ->
  exists s' out,
    serve toISOString (registered_layers key) reqs s =
      (Ok (replicate (Nat.min (length reqs) (10 - k)) health_ok
           ++ replicate (length reqs - (10 - k)) RateLimited), s', out) /\
    hits s' !! ip = Some ((k + length reqs)%nat, reset) /\ now s' < reset.
Proof.
  induction reqs as [| [[t req] up] rest IH]; intros s k reset Hall Hhits Hnow.
  - eexists; eexists. split; [reflexivity |]. rewrite Nat.add_0_r. auto.
  - apply Forall_cons in Hall. destruct Hall as [[Hreq Ht] Hrest]. cbn [fst snd] in Hreq, Ht.
    destruct (dispatch_health_in_window up req
                {| now := Z.max (now s) t; timers := timers s; hits := hits s |}
                k reset Hreq Hhits ltac:(cbn [now]; lia))
      as (s1 & out1 & Hd & Hh1 & Hn1).
    cbn [now] in Hn1.
    destruct (IH s1 (S k) reset Hrest Hh1 ltac:(lia)) as (s2 & out2 & Hs & Hh2 & Hn2).
    cbn [serve]. unfold mbind, M_bind, bind, at_time. rewrite Hd, Hs.
    cbn [mret M_ret ret length].
    eexists; eexists. split; [| split; [| exact Hn2]].
    + rewrite capped_responses_step. reflexivity.
    + rewrite Hh2. f_equal. f_equal. lia.
Qed.

End Burst.

(** X10: the cap of ten requests per client and minute. Take any run of
    GET /health requests of one client that has no window running; the
    first request opens a window of 60 000 ms. If the others all arrive
    before that window ends, the first ten requests are answered by the
    health route and every later one by the limiter; and a further
    request of the client that arrives when the window has ended is
    answered by the health route again. *)
Theorem health_burst_is_capped_at_ten
    (toISOString : Z -> jsstring) (key : jsstring) (ip : string)
    (t1 : Z) (req1 : request) (up1 : reply jsval)
    (rest : list (Z * request * reply jsval)) (s : state) :
  let reqs := (t1, req1, up1) :: rest in
  let opened := Z.max (now s) t1 in
  health_of ip req1 ->
  Forall (fun r => health_of ip (snd (fst r)) /\ fst (fst r) < opened + 60000) rest ->
  (forall n reset, hits s !! ip = Some (n, reset) -> reset <= now s) ->
  exists s' out,
    serve toISOString (registered_layers key) reqs s =
      (Ok (replicate (Nat.min (length reqs) 10) health_ok
           ++ replicate (length reqs - 10) RateLimited), s', out) /\
    forall t req up, health_of ip req -> opened + 60000 <= t ->
      value ((at_time t;; dispatch toISOString (registered_layers key) up req) s')
      = Ok health_ok.
Proof.
  intros reqs opened Hreq1 Hrest Hended. subst reqs.
  destruct (dispatch_health_opens_window toISOString key ip up1 req1
              {| now := opened; timers := timers s; hits := hits s |} Hreq1)
    as (s1 & out1 & Hd & Hh1 & Hn1).
  { cbn [hits now]. intros n reset Hh. specialize (Hended n reset Hh). subst opened. lia. }
  cbn [now] in Hh1, Hn1.
  destruct (serve_health_in_window toISOString key ip rest s1 1 (opened + 60000)
              Hrest Hh1 ltac:(lia)) as (s2 & out2 & Hs & Hh2 & Hn2).
  exists s2. eexists. split.
  - cbn [serve]. unfold mbind, M_bind, bind, at_time. fold opened. rewrite Hd, Hs.
    cbn [mret M_ret ret length].
    replace (Nat.min (S (length rest)) 10) with (S (Nat.min (length rest) 9)) by lia.
    replace (S (length rest) - 10)%nat with (length rest - 9)%nat by lia.
    reflexivity.
  - intros t req up Hreq Ht.
    destruct (dispatch_health_opens_window toISOString key ip up req
                {| now := Z.max (now s2) t; timers := timers s2; hits := hits s2 |} Hreq)
      as (s3 & out3 & Hd3 & _).
    { cbn [hits now]. intros n reset Hh. rewrite Hh2 in Hh. injection Hh as _ <-. lia. }
    unfold mbind, M_bind, bind, at_time, value. rewrite Hd3. reflexivity.
Qed.

Lemma health_burst_is_capped_at_ten_witness :
  let probe := fun t : Z => (t, health_request, replied JNull) in
  (exists s' out,
     serve sample_iso (registered_layers (lit "sk-test"))
       (List.map probe [0; 1000; 2000; 3000; 4000; 5000; 6000; 7000; 8000; 9000; 10000;
                        59999]) initial
     = (Ok (replicate 10 health_ok ++ replicate 2 RateLimited), s', out) /\
     value ((at_time 60000;;
             dispatch sample_iso (registered_layers (lit "sk-test")) (replied JNull)
               health_request) s') = Ok health_ok).
Proof.
  cbv zeta.
  destruct (health_burst_is_capped_at_ten sample_iso (lit "sk-test") "203.0.113.7"
              0 health_request (replied JNull)
              (List.map (fun t : Z => (t, health_request, replied JNull))
                 [1000; 2000; 3000; 4000; 5000; 6000; 7000; 8000; 9000; 10000; 59999])
              initial)
    as (s' & out & Hs & Hnext).
  - repeat split.
  - cbn [List.map]. repeat (constructor; [cbn; repeat split; lia |]). constructor.
  - intros n reset H. discriminate H.
  - exists s', out. split; [exact Hs |].
    apply Hnext; [repeat split | cbn; lia].
Defined.

(* ===================================================================== *)
(** ** Further properties of start-up                                     *)
(* ===================================================================== *)

Section StartupMore.

Variable toISOString : Z -> jsstring.

(** The two stretches of [postToX()] make up the whole function. *)
Lemma postToX_split (pool : list jsstring) (tick : tick_env) (s : state) :
  (pending ← postToX_begin toISOString pool tick;
   match pending with
   | Some tweet => postToX_resume toISOString tick tweet
   | None => mret tt
   end) s
  = postToX toISOString pool tick s.
Proof.
  exec.
  destruct (length (compose_tweet _ _) <=? 280)%nat; [| reflexivity].
  cbn [fst snd settle app now timers hits].
  destruct (outcome (publish tick)) as [[] | e]; reflexivity.
Qed.

(** The script with the credential and the consumer tokens: the first
    publish call is made, then the server listens. *)
Lemma startup_runs
    (env : gmap string jsstring) (tick : tick_env) (s : state) (key : jsstring) :
  env !! "OPENAI_API_KEY" = Some key ->
  key <> [] ->
  truthy (getenv env "TWITTER_APP_SECRET") && truthy (getenv env "TWITTER_APP_KEY") = true ->
  startup toISOString env tick s =
    (Ok (registered_layers key), s,
     [ TweetV2 (compose_tweet (getRandomMessage cryptoFlirtMessages (random tick))
                  (toISOString (now s)));
       ConsoleLog [JStr (lit "Starting the Waifu Backend at"); JStr (toISOString (now s))];
       AppListen (if truthy (getenv env "PORT") then getenv env "PORT" else JNum (3000 # 1))
                 (lit "0.0.0.0") ]).
Proof.
  intros Hk Hne Htok. rewrite (startup_with_credential toISOString env tick s key Hk Hne Htok).
  cbv zeta.
  pose proof (pool_tweet_length (random tick) (toISOString (now s))) as Hlen.
  destruct (length (compose_tweet _ _) <=? 280)%nat eqn:Htest; [reflexivity |].
  apply Nat.leb_gt in Htest. lia.
Qed.

End StartupMore.



(** X12: with the credential and the consumer tokens set the script
    listens exactly once, on host 0.0.0.0, on the port named by PORT
    (passed on as the string it is) or, when PORT is absent or empty, on
    3000. *)
Theorem startup_listens_on_port_or_3000
    (toISOString : Z -> jsstring) (env : gmap string jsstring) (tick : tick_env)
    (s : state) (key : jsstring) :
  env !! "OPENAI_API_KEY" = Some key ->
  key <> [] ->
  truthy (getenv env "TWITTER_APP_SECRET") && truthy (getenv env "TWITTER_APP_KEY") = true ->
  List.filter is_listen (output (startup toISOString env tick s)) =
    [AppListen match env !! "PORT" with
               | Some (c :: rest) => JStr (c :: rest)
               | Some [] | None => JNum (3000 # 1)
               end
               (lit "0.0.0.0")].
Proof.
  intros Hk Hne Htok. rewrite (startup_runs toISOString env tick s key Hk Hne Htok).
  unfold output. cbn [snd List.filter is_listen]. unfold getenv.
  destruct (env !! "PORT") as [[| c rest] |]; reflexivity.
Qed.

Lemma startup_listens_on_port_or_3000_witness :
  let env : gmap string jsstring := <[ "PORT" := lit "8080" ]> sample_env in
  List.filter is_listen (output (startup sample_iso env sample_tick initial)) =
    [AppListen (JStr (lit "8080")) (lit "0.0.0.0")] /\
  List.filter is_listen (output (startup sample_iso sample_env sample_tick initial)) =
    [AppListen (JNum (3000 # 1)) (lit "0.0.0.0")].
Proof.
  split.
  - etransitivity;
      [ apply (startup_listens_on_port_or_3000 sample_iso (<[ "PORT" := lit "8080" ]> sample_env)
                 sample_tick initial (lit "sk-test")); [reflexivity | discriminate | reflexivity]
      | vm_compute; reflexivity ].
  - etransitivity;
      [ apply (startup_listens_on_port_or_3000 sample_iso sample_env sample_tick initial
                 (lit "sk-test")); [reflexivity | discriminate | reflexivity]
      | vm_compute; reflexivity ].
Defined.

(** X13: the first tick does not wait for the hour. With the credential
    and the consumer tokens set, the script makes the first publish call
    while it starts, before its "Starting" log line and before it
    listens, with a text stamped with the start-up time, and sets no
    timer yet; when that call settles, the rest of the tick writes its
    one log line, publishes nothing more and sets the next tick one hour
    after the moment the call settled. *)
Theorem first_tick_runs_at_startup
    (toISOString : Z -> jsstring) (env : gmap string jsstring) (tick : tick_env)
    (s : state) (key : jsstring) :
  env !! "OPENAI_API_KEY" = Some key ->
  key <> [] ->
  truthy (getenv env "TWITTER_APP_SECRET") && truthy (getenv env "TWITTER_APP_KEY") = true ->
  let tweet := compose_tweet (getRandomMessage cryptoFlirtMessages (random tick))
                 (toISOString (now s)) in
  let run := startup toISOString env tick s in
  let later := postToX_resume toISOString tick tweet (final run) in
  output run =
    [ TweetV2 tweet;
      ConsoleLog [JStr (lit "Starting the Waifu Backend at"); JStr (toISOString (now s))];
      AppListen (if truthy (getenv env "PORT") then getenv env "PORT" else JNum (3000 # 1))
                (lit "0.0.0.0") ] /\
  timers (final run) = timers s /\
  value later = Ok tt /\
  published (output later) = [] /\
  length (console_lines (output later)) = 1%nat /\
  timers (final later) = timers s ++ [(now s + latency (publish tick) + 3600000, PostToX)].
Proof.
  intros Hk Hne Htok tweet run later. subst later run.
  rewrite (startup_runs toISOString env tick s key Hk Hne Htok).
  unfold output at 1, final. cbn [fst snd]. fold tweet.
  split; [reflexivity |]. split; [reflexivity |].
  exec. destruct (outcome (publish tick)) as [[] | e]; cbn; repeat split.
Qed.

Lemma first_tick_runs_at_startup_witness :
  let run := startup sample_iso sample_env sample_tick initial in
  let tweet := compose_tweet (getRandomMessage cryptoFlirtMessages (1 # 2)%Q) (sample_iso 0) in
  published (output run) = [tweet] /\
  timers (final run) = [] /\
  timers (final (postToX_resume sample_iso sample_tick tweet (final run)))
  = [(0 + 120 + 3600000, PostToX)].
Proof.
  destruct (first_tick_runs_at_startup sample_iso sample_env sample_tick initial (lit "sk-test")
              eq_refl ltac:(discriminate) eq_refl) as (Hout & Ht & _ & _ & _ & Hlater).
  split; [rewrite Hout; reflexivity |]. split; [exact Ht | exact Hlater].
Defined.

(* ===================================================================== *)
(** ** Further properties of the scheduled poster                         *)
(* ===================================================================== *)

Lemma published_app (out1 out2 : list effect) :
  published (out1 ++ out2) = published out1 ++ published out2.
Proof. unfold published. apply omap_app. Qed.

Lemma console_lines_app (out1 out2 : list effect) :
  console_lines (out1 ++ out2) = console_lines out1 ++ console_lines out2.
Proof. unfold console_lines. apply List.filter_app. Qed.

Section ScriptPoster.

Variable toISOString : Z -> jsstring.

(** A timer of the script's poster fires: the tick starts when the timer
    is due (or at once, if it is overdue), publishes, and re-arms. *)
Lemma fire_next_script (tick : tick_env) (s : state) (due : Z) (rest : list (Z * callback)) :
  timers s = (due, PostToX) :: rest ->
  let start := Z.max (now s) due in
  let tweet := compose_tweet (getRandomMessage cryptoFlirtMessages (random tick))
                 (toISOString start) in
  exists out,
    fire_next toISOString cryptoFlirtMessages tick s =
      (Ok true,
       {| now := start + latency (publish tick);
          timers := rest ++ [(start + latency (publish tick) + 3600000, PostToX)];
          hits := hits s |},
       out) /\
    published out = [tweet] /\
    length (console_lines out) = 1%nat.
Proof.
  intros Ht start tweet. unfold fire_next. rewrite Ht.
  rewrite postToX_run. cbv zeta. cbn [now timers hits]. fold start. fold tweet.
  pose proof (pool_tweet_length (random tick) (toISOString start)) as Hlen. fold tweet in Hlen.
  destruct (length tweet <=? 280)%nat eqn:Htest; [| apply Nat.leb_gt in Htest; lia].
  eexists. split; [reflexivity |].
  destruct (outcome (publish tick)); split; reflexivity.
Qed.

(** The loop over the script's pool, tick after tick. *)
Lemma event_loop_script (ticks : list tick_env) :
  forall s due, timers s = [(due, PostToX)] -> now s <= due ->
  let run := event_loop toISOString cryptoFlirtMessages ticks s in
  value run = Ok (length ticks) /\
  length (published (output run)) = length ticks /\
  length (console_lines (output run)) = length ticks /\
  timers (final run) =
    [(due + Z.of_nat (length ticks) * 3600000 + total_latency ticks, PostToX)].
Proof.
  induction ticks as [| tick rest IH]; intros s due Ht Hdue run; subst run.
  - unfold value, output, final. cbn. repeat split. rewrite Ht. f_equal. f_equal. lia.
  - destruct (fire_next_script tick s due [] Ht) as (out & Hfire & Hpub & Hcon).
    rewrite Z.max_r in Hfire by exact Hdue. cbn [app] in Hfire.
    cbn [event_loop]. unfold mbind, M_bind, bind. rewrite Hfire.
    specialize (IH {| now := due + latency (publish tick);
                      timers := [(due + latency (publish tick) + 3600000, PostToX)];
                      hits := hits s |}
                   (due + latency (publish tick) + 3600000) eq_refl).
    cbn [now] in IH. specialize (IH ltac:(lia)). cbv zeta in IH.
    destruct (event_loop toISOString cryptoFlirtMessages rest _) as [[r s2] out2].
    unfold value, output, final in IH |- *. cbn [fst snd] in IH |- *.
    destruct IH as (-> & Hp2 & Hc2 & Ht2).
    cbn [mret M_ret ret fst snd length total_latency foldr].
    rewrite app_nil_r, published_app, console_lines_app, !length_app.
    rewrite Hpub, Hcon, Hp2, Hc2, Ht2.
    repeat split. f_equal. f_equal.
    change (foldr (fun tick acc => latency (publish tick) + acc) 0 rest)
      with (total_latency rest).
    lia.
Qed.

End ScriptPoster.

(** X14: the cadence of the script's poster. From a state with the one
    poster timer pending and not overdue, any run of ticks performs one
    publish call and writes one console line per tick, and leaves again
    exactly one timer; that timer is due one hour per tick plus the
    time all the publish calls took after the first due time, so the
    posts drift by the duration of the calls. *)
Theorem poster_cadence_drifts_by_latency
    (toISOString : Z -> jsstring) (ticks : list tick_env) (s : state) (due : Z) :
  timers s = [(due, PostToX)] ->
  now s <= due ->
  let run := event_loop toISOString cryptoFlirtMessages ticks s in
  value run = Ok (length ticks) /\
  length (published (output run)) = length ticks /\
  length (console_lines (output run)) = length ticks /\
  timers (final run) =
    [(due + Z.of_nat (length ticks) * 3600000 + total_latency ticks, PostToX)].
Proof.
  intros Ht Hdue. exact (event_loop_script toISOString ticks s due Ht Hdue).
Qed.

Lemma poster_cadence_drifts_by_latency_witness :
  let ticks := [ {| random := 0%Q; publish := mk_reply 120 (Returned tt) |};
                 {| random := (3 # 5)%Q;
                    publish := mk_reply 300 (Threw (type_error (lit "x"))) |};
                 {| random := (9 # 10)%Q; publish := mk_reply 80 (Returned tt) |} ] in
  let s := {| now := 0; timers := [(0, PostToX)]; hits := ∅ |} in
  let run := event_loop sample_iso cryptoFlirtMessages ticks s in
  now s <= 0 /\
  length (published (output run)) = 3%nat /\
  timers (final run) = [(0 + 3 * 3600000 + 500, PostToX)].
Proof.
  split; [cbn; lia |].
  destruct (poster_cadence_drifts_by_latency sample_iso
              [ {| random := 0%Q; publish := mk_reply 120 (Returned tt) |};
                {| random := (3 # 5)%Q;
                   publish := mk_reply 300 (Threw (type_error (lit "x"))) |};
                {| random := (9 # 10)%Q; publish := mk_reply 80 (Returned tt) |} ]
              {| now := 0; timers := [(0, PostToX)]; hits := ∅ |} 0
              eq_refl ltac:(cbn; lia)) as (_ & Hp & _ & Ht).
  split; [exact Hp | exact Ht].
Defined.

Section PosterMore.

Variable toISOString : Z -> jsstring.
Variable pool : list jsstring.

(** X16: the shape of the text. For a clock rendering
    [date ++ "T" ++ time ++ ...] with a ten-unit date free of "T" and at
    least eight units of time, the text is the selected template, then
    " | ", then the date, a space and the first eight units of the time;
    it is 22 units longer than the template, which is never cut. *)
Theorem tweet_is_template_separator_timestamp
    (msg : option jsstring) (date time : jsstring) :
  length date = 10%nat ->
  (8 <= length time)%nat ->
  ~ In 84%N date ->
  let tweet := compose_tweet msg (date ++ [84%N] ++ time) in
  tweet = template_string msg ++ lit " | " ++ date ++ [32%N] ++ take 8 time /\
  length tweet = (length (template_string msg) + 22)%nat.
Proof.
  intros Hd Ht Hno tweet. subst tweet.
  assert (Hshape : compose_tweet msg (date ++ [84%N] ++ time)
                   = template_string msg ++ lit " | " ++ date ++ [32%N] ++ take 8 time).
  { unfold compose_tweet, slice0. do 2 f_equal.
    rewrite take_app_ge by lia. rewrite Hd. change (19 - 10)%nat with 9%nat.
    cbn [app take]. clear Hd.
    induction date as [| c rest IH]; cbn [app replace_first].
    - reflexivity.
    - destruct (N.eqb c 84) eqn:Hc.
      + apply N.eqb_eq in Hc. exfalso. apply Hno. left. exact Hc.
      + f_equal. apply IH. intros Hin. apply Hno. right. exact Hin. }
  split; [exact Hshape |].
  rewrite Hshape, !length_app, length_take. cbn [length]. rewrite Hd.
  change (length (lit " | ")) with 3%nat. lia.
Qed.

(** X17: every tick writes exactly one console line, and that line is a
    [console.error] exactly when the publish call was made and rejected
    (a rejected call is logged, not thrown and not repeated). *)
Theorem tick_writes_one_console_line (tick : tick_env) (s : state) :
  let tweet := compose_tweet (getRandomMessage pool (random tick)) (toISOString (now s)) in
  let out := output (postToX toISOString pool tick s) in
  length (console_lines out) = 1%nat /\
  (console_errors out <> [] <->
     (length tweet <= 280)%nat /\ exists e, outcome (publish tick) = Threw e) /\
  (length (published out) <= 1)%nat.
Proof.
  intros tweet out. subst out. rewrite postToX_run. cbv zeta. fold tweet.
  unfold output.
  destruct (length tweet <=? 280)%nat eqn:Hlen; cbn [snd].
  - apply Nat.leb_le in Hlen.
    destruct (outcome (publish tick)) as [[] | e] eqn:Ho.
    + split; [reflexivity |]. split; [| cbn; lia].
      split; [intros H; exfalso; apply H; reflexivity |].
      intros (_ & e & He). discriminate He.
    + split; [reflexivity |]. split; [| cbn; lia].
      split; [intros _; split; [exact Hlen | exists e; reflexivity] |].
      intros _ H. discriminate H.
  - apply Nat.leb_gt in Hlen.
    split; [reflexivity |]. split; [| cbn; lia].
    split; [intros H; exfalso; apply H; reflexivity |].
    intros (Hle & _). lia.
Qed.

End PosterMore.

Lemma tweet_is_template_separator_timestamp_witness :
  compose_tweet (Some (lit "hello")) (lit "2025-01-01" ++ [84%N] ++ lit "00:00:00.000Z")
  = lit "hello | 2025-01-01 00:00:00".
Proof.
  etransitivity;
    [ apply (proj1 (tweet_is_template_separator_timestamp (Some (lit "hello"))
                      (lit "2025-01-01") (lit "00:00:00.000Z")
                      eq_refl ltac:(cbn; lia)
                      ltac:(cbn; intros H; repeat destruct H as [H | H]; try discriminate H;
                            exact H)))
    | reflexivity ].
Defined.

(* ===================================================================== *)
(** ** The memory logger                                                  *)
(* ===================================================================== *)

(** The rounded figure, as an integer division. *)
Lemma rounded_megabytes_div (bytes : Z) :
  rounded_megabytes bytes = (2 * bytes + 1048576) / 2097152.
Proof.
  unfold rounded_megabytes, Math_round, Qfloor, Qdiv, Qmult, Qplus, Qinv, inject_Z.
  cbn [Qnum Qden Z.mul Pos.mul]. f_equal. lia.
Qed.

(** X18: the figures of the memory log are byte counts rounded to the
    nearest megabyte (2^20 bytes), halves upwards: each figure is within
    half a megabyte of the count it stands for, and a whole number of
    megabytes is shown as it is. The callback writes one log line with
    the three figures and changes nothing. *)
Theorem memory_figures_are_nearest_megabytes
    (toISOString : Z -> jsstring) (used : memory_usage) (s : state) :
  (forall bytes,
     rounded_megabytes bytes * 1048576 - 524288 <= bytes
     < rounded_megabytes bytes * 1048576 + 524288) /\
  (forall k, rounded_megabytes (k * 1048576) = k) /\
  memory_log toISOString used s =
    (Ok tt, s,
     [ConsoleLog
        [ JStr (lit "Memory usage at"); JStr (toISOString (now s)); JStr (lit ":");
          JObj [ (lit "heapTotal",
                  JStr (number_to_string (rounded_megabytes (heapTotal used)) ++ lit " MB"));
                 (lit "heapUsed",
                  JStr (number_to_string (rounded_megabytes (heapUsed used)) ++ lit " MB"));
                 (lit "external",
                  JStr (number_to_string (rounded_megabytes (external used)) ++ lit " MB")) ] ]]).
Proof.
  split; [| split].
  - intros bytes. rewrite rounded_megabytes_div.
    pose proof (Z.div_mod (2 * bytes + 1048576) 2097152 ltac:(lia)) as Hdm.
    pose proof (Z.mod_pos_bound (2 * bytes + 1048576) 2097152 ltac:(lia)) as Hmod.
    lia.
  - intros k. rewrite rounded_megabytes_div.
    replace (2 * (k * 1048576) + 1048576) with (1048576 + k * 2097152) by lia.
    rewrite Z.div_add by lia. reflexivity.
  - unfold memory_log. exec. destruct s. reflexivity.
Qed.
